(** * SCCS chat assistant: the /chat endpoint of [chatbot.py]

    A shallow embedding of [chatbot.py] and the properties of its
    specification.

    Conventions of the model.
    - A Python [str] is a [string], a text outside ASCII being held in its
      UTF-8 bytes.  [lower], [strip], the slice [take], the word test of
      [re] and the digits of [strptime] are Python's on ASCII text.  On
      other text Python does more: [str.lower] also lowers U+212A and
      U+0130, [str.strip] also strips the white space outside ASCII, a
      slice counts characters, [\w] and [\d] take the letters and digits
      of every script, and [repr] escapes what is not printable.  Each
      property that rests on one of these is stated for ASCII text
      ([is_ascii]).
    - A parsed JSON body is a [json] value; JSON numbers are integers.
    - [strftime] writes AM and PM as the C locale does.
    - The two remote services are an environment [env]: what each answers to a
      request.  The endpoint runs in a monad that records every outbound
      HTTP call in order and can raise a Python exception.  Logging is not
      recorded. *)

From Stdlib Require Import String Ascii List ZArith Bool Lia DecimalString QArith Btauto.
Import ListNotations.
Open Scope string_scope.
Open Scope Z_scope.

(** ** Python strings *)

Module PyStr.

Definition code (c : ascii) : nat := nat_of_ascii c.

Definition between (lo hi : nat) (c : ascii) : bool :=
  (Nat.leb lo (code c) && Nat.leb (code c) hi)%bool.

Definition is_upper : ascii -> bool := between 65 90.
Definition is_lower : ascii -> bool := between 97 122.
Definition is_digit : ascii -> bool := between 48 57.

(** [\w] of [re] on ASCII text: letters, digits and the underscore. *)
Definition is_word (c : ascii) : bool :=
  (is_upper c || is_lower c || is_digit c || Ascii.eqb c "_")%bool.

(** [str.isspace] on ASCII: TAB, LF, VT, FF, CR, FS, GS, RS, US, space. *)
Definition is_space (c : ascii) : bool :=
  (between 9 13 c || between 28 32 c)%bool.

Definition lower_char (c : ascii) : ascii :=
  if is_upper c then ascii_of_nat (code c + 32) else c.

(** [s.lower()] *)
Fixpoint lower (s : string) : string :=
  match s with
  | EmptyString => EmptyString
  | String c t => String (lower_char c) (lower t)
  end.

Fixpoint lstrip (s : string) : string :=
  match s with
  | EmptyString => EmptyString
  | String c t => if is_space c then lstrip t else s
  end.

Fixpoint rstrip (s : string) : string :=
  match s with
  | EmptyString => EmptyString
  | String c t =>
      match rstrip t with
      | EmptyString => if is_space c then EmptyString else String c EmptyString
      | r => String c r
      end
  end.

(** [s.strip()] *)
Definition strip (s : string) : string := rstrip (lstrip s).

(** [needle in hay] *)
Fixpoint contains (needle hay : string) : bool :=
  (prefix needle hay ||
     match hay with
     | EmptyString => false
     | String _ t => contains needle t
     end)%bool.

(** [s[:n]] *)
Fixpoint take (n : nat) (s : string) : string :=
  match n, s with
  | S k, String c t => String c (take k t)
  | _, _ => EmptyString
  end.

(** [s.replace(old, new)] for a non-empty [old]: occurrences are replaced
    from the left and do not overlap.  [skip] counts the characters of the
    occurrence just replaced that are still to be passed over. *)
Fixpoint replace_from (old new : string) (skip : nat) (s : string) : string :=
  match s with
  | EmptyString => EmptyString
  | String c t =>
      match skip with
      | S k => replace_from old new k t
      | O =>
          if prefix old s
          then new ++ replace_from old new (String.length old - 1) t
          else String c (replace_from old new O t)
      end
  end.

Definition replace (old new s : string) : string := replace_from old new O s.

(** [sep.join(parts)] *)
Definition join (sep : string) (parts : list string) : string :=
  String.concat sep parts.

Definition is_empty (s : string) : bool :=
  match s with EmptyString => true | _ => false end.

(** [str(n)] for an integer. *)
Definition of_Z (z : Z) : string := NilZero.string_of_int (Z.to_int z).

(** Every character of [s] is an ASCII character. *)
Fixpoint is_ascii (s : string) : bool :=
  match s with
  | EmptyString => true
  | String c t => (Nat.ltb (code c) 128 && is_ascii t)%bool
  end.

Definition LF : string := String (ascii_of_nat 10) EmptyString.
Definition dquote : ascii := ascii_of_nat 34.
Definition squote : ascii := ascii_of_nat 39.
Definition backslash : ascii := ascii_of_nat 92.

End PyStr.

(** ** Python values and exceptions *)

Module Py.
Import PyStr.

(** What [json()] returns: [None], a bool, an int, a str, a list or a dict
    (its items in order, keys distinct). *)
#[warnings="-register-all"] Inductive json : Type :=
| JNull
| JBool (b : bool)
| JInt (z : Z)
| JStr (s : string)
| JList (l : list json)
| JDict (d : list (string * json)).

(** The exceptions the endpoint can meet.  [ValueError] stands for the JSON
    decoding error too, which is one. *)
Inductive exn : Type :=
| HTTPException (status_code : Z) (detail : string)
| RequestException
| AttributeError
| TypeError
| KeyError
| IndexError
| ValueError.

Inductive result (A : Type) : Type :=
| Ok (a : A)
| Raise (e : exn).
Arguments Ok {A} a.
Arguments Raise {A} e.

Definition rbind {A B : Type} (r : result A) (k : A -> result B) : result B :=
  match r with
  | Ok a => k a
  | Raise e => Raise e
  end.

(** A comprehension [[f(x) for x in xs]]: elements in order, the first
    exception ends it. *)
Fixpoint rmap {A B : Type} (f : A -> result B) (xs : list A) : result (list B) :=
  match xs with
  | [] => Ok []
  | x :: t => rbind (f x) (fun y => rbind (rmap f t) (fun ys => Ok (y :: ys)))
  end.

(** [[x for x in xs if keep(x)]] *)
Fixpoint rfilter {A : Type} (keep : A -> result bool) (xs : list A) : result (list A) :=
  match xs with
  | [] => Ok []
  | x :: t =>
      rbind (keep x) (fun b =>
      rbind (rfilter keep t) (fun ys => Ok (if b then x :: ys else ys)))
  end.

(** Truth value of an object: [None], [False], [0], [""], [[]] and [{}] are
    false. *)
Definition truthy (v : json) : bool :=
  match v with
  | JNull => false
  | JBool b => b
  | JInt z => negb (z =? 0)
  | JStr s => negb (is_empty s)
  | JList l => match l with [] => false | _ => true end
  | JDict d => match d with [] => false | _ => true end
  end.

Definition is_dict (v : json) : bool := match v with JDict _ => true | _ => false end.
Definition is_list (v : json) : bool := match v with JList _ => true | _ => false end.

Fixpoint lookup (k : string) (d : list (string * json)) : option json :=
  match d with
  | [] => None
  | (k', v) :: t => if String.eqb k k' then Some v else lookup k t
  end.

(** [v.get(k, default)] *)
Definition dict_get (v : json) (k : string) (default : json) : result json :=
  match v with
  | JDict d => Ok (match lookup k d with Some x => x | None => default end)
  | _ => Raise AttributeError
  end.

(** [v[k]] for a str key [k] *)
Definition item (v : json) (k : string) : result json :=
  match v with
  | JDict d => match lookup k d with Some x => Ok x | None => Raise KeyError end
  | _ => Raise TypeError
  end.

(** [v[0]]; a dict from JSON has str keys only *)
Definition item0 (v : json) : result json :=
  match v with
  | JList l => match l with x :: _ => Ok x | [] => Raise IndexError end
  | JStr s => match s with String c _ => Ok (JStr (String c "")) | "" => Raise IndexError end
  | JDict _ => Raise KeyError
  | _ => Raise TypeError
  end.

(** [v[:n]]; a slice of a dict is a [TypeError] (a [KeyError] from
    Python 3.12 on) *)
Definition slice_to (n : nat) (v : json) : result json :=
  match v with
  | JList l => Ok (JList (firstn n l))
  | JStr s => Ok (JStr (take n s))
  | _ => Raise TypeError
  end.

Fixpoint chars (s : string) : list json :=
  match s with
  | EmptyString => []
  | String c t => JStr (String c "") :: chars t
  end.

(** [for x in v]: the elements of a list, the keys of a dict, the
    characters of a str *)
Definition iter (v : json) : result (list json) :=
  match v with
  | JList l => Ok l
  | JDict d => Ok (map (fun kv => JStr (fst kv)) d)
  | JStr s => Ok (chars s)
  | _ => Raise TypeError
  end.

Definition hex_digit (n : nat) : ascii :=
  ascii_of_nat (if Nat.ltb n 10 then 48 + n else 87 + n).

Definition repr_char (quote c : ascii) : string :=
  if (Ascii.eqb c quote || Ascii.eqb c backslash)%bool then String backslash (String c "")
  else if Nat.eqb (code c) 9 then "\t"
  else if Nat.eqb (code c) 10 then "\n"
  else if Nat.eqb (code c) 13 then "\r"
  else if (Nat.ltb (code c) 32 || Nat.eqb (code c) 127)%bool
       then "\x" ++ String (hex_digit (Nat.div (code c) 16))
                      (String (hex_digit (Nat.modulo (code c) 16)) "")
  else String c "".

Fixpoint repr_chars (quote : ascii) (s : string) : string :=
  match s with
  | EmptyString => EmptyString
  | String c t => repr_char quote c ++ repr_chars quote t
  end.

(** [repr(s)] of a str: single quotes, unless [s] has a single quote and
    no double quote *)
Definition repr_str (s : string) : string :=
  let quote :=
    if (contains (String squote "") s && negb (contains (String dquote "") s))%bool
    then dquote else squote in
  String quote (repr_chars quote s ++ String quote "").

Fixpoint repr (v : json) : string :=
  match v with
  | JNull => "None"
  | JBool true => "True"
  | JBool false => "False"
  | JInt z => of_Z z
  | JStr s => repr_str s
  | JList l => "[" ++ join ", " (map repr l) ++ "]"
  | JDict d =>
      "{" ++ join ", " (map (fun '(k, x) => repr_str k ++ ": " ++ repr x) d) ++ "}"
  end.

(** [str(v)], what an f-string field [{v}] prints *)
Definition str (v : json) : string :=
  match v with
  | JStr s => s
  | _ => repr v
  end.

End Py.

(** ** The two library routines the endpoint leans on *)

Module Re.
Import PyStr.

Definition word_at (c : option ascii) : bool :=
  match c with Some x => is_word x | None => false end.

(** [\b] between two neighbours; [None] is an end of the text. *)
Definition word_boundary (prev next : option ascii) : bool :=
  xorb (word_at prev) (word_at next).

Definition head (s : string) : option ascii :=
  match s with String c _ => Some c | EmptyString => None end.

(** A match of [\b[A-Z]{3}[0-9]{4}\b] that starts at the head of [s], where
    [prev] is the character before it. *)
Definition match_here (prev : option ascii) (s : string) : option string :=
  match s with
  | String a (String b (String c (String d (String e (String f (String g r)))))) =>
      if (word_boundary prev (Some a)
          && is_upper a && is_upper b && is_upper c
          && is_digit d && is_digit e && is_digit f && is_digit g
          && word_boundary (Some g) (head r))%bool
      then Some (String a (String b (String c (String d (String e (String f (String g "")))))))
      else None
  | _ => None
  end.

Fixpoint search_from (prev : option ascii) (s : string) : option string :=
  match match_here prev s with
  | Some m => Some m
  | None =>
      match s with
      | EmptyString => None
      | String c t => search_from (Some c) t
      end
  end.

(** [re.search(r'\b[A-Z]{3}[0-9]{4}\b', s)], then [group(0)] of the match:
    the leftmost match. *)
Definition search_module_code (s : string) : option string := search_from None s.

End Re.

Module Datetime.
Import PyStr.

Definition digit_value (c : ascii) : nat := code c - 48.

(** What [%H] can take at the head of [s], in the order [strptime] tries:
    [2[0-3]], [[0-1]\d], [\d]; each with the text left. *)
Definition H_matches (s : string) : list (nat * string) :=
  (match s with
   | String a (String b r) =>
       if (Ascii.eqb a "2" && between 48 51 b)%bool
       then [(20 + digit_value b, r)%nat] else []
   | _ => []
   end ++
   match s with
   | String a (String b r) =>
       if (between 48 49 a && is_digit b)%bool
       then [(10 * digit_value a + digit_value b, r)%nat] else []
   | _ => []
   end ++
   match s with
   | String a r => if is_digit a then [(digit_value a, r)] else []
   | _ => []
   end)%list.

(** What [%M] can take: [[0-5]\d], [\d]. *)
Definition M_matches (s : string) : list (nat * string) :=
  (match s with
   | String a (String b r) =>
       if (between 48 53 a && is_digit b)%bool
       then [(10 * digit_value a + digit_value b, r)%nat] else []
   | _ => []
   end ++
   match s with
   | String a r => if is_digit a then [(digit_value a, r)] else []
   | _ => []
   end)%list.

(** The first way to match [%H:%M] at the head of the text, an hour
    alternative being given up when no [:] and minute follow it. *)
Fixpoint first_match (hs : list (nat * string)) : option (nat * nat * string) :=
  match hs with
  | [] => None
  | (h, r) :: more =>
      match r with
      | String c r' =>
          if Ascii.eqb c ":" then
            match M_matches r' with
            | (m, rest) :: _ => Some (h, m, rest)
            | [] => first_match more
            end
          else first_match more
      | EmptyString => first_match more
      end
  end.

(** [datetime.strptime(s, '%H:%M')]: hour and minute, or [ValueError] when
    the text does not match or text remains after the match. *)
Definition strptime (s : string) : Py.result (nat * nat) :=
  match first_match (H_matches s) with
  | Some (h, m, EmptyString) => Py.Ok (h, m)
  | Some _ => Py.Raise Py.ValueError
  | None => Py.Raise Py.ValueError
  end.

Definition two_digits (n : nat) : string :=
  String (ascii_of_nat (48 + Nat.div n 10))
    (String (ascii_of_nat (48 + Nat.modulo n 10)) "").

Definition hour12 (h : nat) : nat :=
  match Nat.modulo h 12 with O => 12%nat | k => k end.

(** [strftime('%I:%M %p')] of hour [h] and minute [m] *)
Definition strftime (h m : nat) : string :=
  two_digits (hour12 h) ++ ":" ++ two_digits m ++ " "
  ++ (if Nat.ltb h 12 then "AM" else "PM").

End Datetime.

(** ** [chatbot.py] *)

Module Chatbot.
Import PyStr Py.

Definition LIBRARY_API_BASE : string := "https://sccs-library-db.onrender.com".

Definition MODEL_VERSION : string := "openai/gpt-3.5-turbo-16k".

(** [class ChatRequest(BaseModel)]; the items of [context] are not
    validated. *)
Record ChatRequest : Type := {
  message : string;
  user_id : option string;
  context : option (list json)
}.

Definition SCCS_SYSTEM_PROMPT_content : string := "
# Smart Campus Companion System (SCCS) AI Assistant Protocol

## 🏛️ University Context: University of Mpumalanga (UMP)
- 📍 Campuses: Mbombela (Main), Siyabuswa
- 👥 User Base: 15,000+ students and staff
- 🎓 Faculties:
  - Faculty of Agriculture and Natural Sciences (FANS)
  - Faculty of Education
  - Faculty of Economics, Development and Business Sciences
- 🏢 Key Infrastructure:
  - J-Block Lecture Halls, Science Building, UMP Conference Centre
  - UMP Library (Mbombela: Building 15, Siyabuswa: Building 2)
  - Wi-Fi Zones, ICT Labs, Innovation Hub, On-campus Residences
- 💻 Official Systems:
  - SCCS App (Smart Campus Companion System)
  - Moodle (Learning Management System)
  - ITS iEnabler (Student registration and records): https://ienabler.ump.ac.za
  - UMP Email and Online Portals (My UMP App)
- 🗓️ Academic Calendar:
  - Semester-based (Feb–Jun, Jul–Nov)
  - Registration:
    - First-Year: 2–7 Feb 2025 (online); 3–7 Feb (on campus)
    - Returning UG: 2–14 Feb (online); 10–14 Feb (on campus)
    - Postgrad (PGDip/Honours): 2–14 Feb; Masters/Doctoral: until 30 Apr 2025
  - Orientation Week: 10–14 Feb 2025
  - Lectures Start: 17 Feb 2025
  - Late Registration: 17–28 Feb 2025
  - Exams:
    - Sem 1: 26 May–20 Jun 2025
    - Sem 2: 3–28 Nov 2025
    - Re-exams: 14–23 Jul 2025 (Sem 1); 13–22 Jan 2025 (2024 Sem 2)
  - Other Dates: Mid-sem breaks (31 Mar–4 Apr, 23 Jun–18 Jul), Holidays (e.g., 2 Mar, 15 Dec)

## Core Capabilities (ONLY answer about these):

### 1. 🎓 Academic & Career Guidance
- Assist in choosing UMP programs based on NSC subjects and GPA
- Recommend career paths aligned with programs and skills
- Support for module registration via ITS/SCCS integration
- Help track academic progress (e.g., “How to check grades on Moodle”)
- Access to:
  - Student & Graduate Placement Office (career advice, WIL, internships)
  - Career Expo (e.g., 2024 event hosted 40+ employers)
  - Work-readiness workshops (CV writing, interviews, SACE prep)
  - Online job boards, scholarship portals, and appointment booking
  - Counseling Services (academic, personal, career planning)

### 2. 📚 Digital Library & Peer Tutoring Services
- Search textbooks/resources by module code (e.g., INF1511)
- Reserve study rooms (via library booking system)
- Request peer tutors (first-years or module-specific help)
- Access digital tools (Primo search, LibGuides, eBooks, PressReader)
- Use services like printing, renewals, reference help, and research queries
- Contact:
  - Mbombela: Building 15 | Siyabuswa: Building 2
  - Email: library@ump.ac.za | WhatsApp line during open hours
  - Hours: Mon–Fri 8:00–20:00, Sat 8:00–13:00 (Closed Sundays/holidays)

### 3. 🏫 Campus Life & Event Engagement
- Discover and RSVP to UMP events (e.g., Tech Talks, Career Fairs, Open Days)
- Notable Events:
  - Open Day: 13 Aug 2024 for Grade 12s at Mbombela
  - Women's Month Event: “Woman, Ignite Your Light” (23 Aug 2024)
  - Mandela Day Projects: 18 Jul 2024 (both campuses)
  - Career Expo: Sept 2024 (40+ employers)
  - Humanities & Dev Lecture: 11 Nov 2024
  - Wikipedia Workshop: Apr 2025; SWiP Language Workshop: May 2025
  - Campus Sports Day: 19 May 2025 (Mbombela vs Siyabuswa)
  - 10th Graduation Ceremony: 17 May 2025
- View campus club lists and register (via SCCS Events/Clubs portal)
- Track participation in leadership and mentorship programs
- Suggest events by category (Academic, Social, Sport, etc.)
- Directions to venues (e.g., “Where is the UMP Conference Centre?”)

### 4. 🔍 Smart Campus Services
- Report IT or infrastructure issues (redirect to ICT Service Desk or Helpdesk)
- Assist with Moodle login or iEnabler portal issues (registration, results, timetable)
- Locate ICT labs or find Wi-Fi zones
- Confirm Wi-Fi SSID: “UMP-Wi-Fi” or “Siyabuswa_Wi-Fi”; Eduroam supported
- Technical Help:
  - ICT Service Desk
  - Call Centre for portal/login issues: 013 002 0047/50
  - General Switchboard: 013 002 0001 | Email: info@ump.ac.za
- Infrastructure:
  - Advanced science, ICT, and life science labs
  - Engineering and Computing buildings equipped for UG/postgrad use

**IMPORTANT:** When you reply to user queries, do NOT use Markdown formatting. Respond in plain text without any asterisks, hashes, or bullet‐point syntax.**

".

Definition SCCS_SYSTEM_PROMPT : json :=
  JDict [("role", JStr "system"); ("content", JStr SCCS_SYSTEM_PROMPT_content)].

(** *** The outside world *)

(** What [requests] gets from a service: no answer, or a status with a body
    ([None] when the body is not JSON). *)
Inductive http_reply : Type :=
| ConnectionError
| Timeout
| Response (status_code : Z) (body : option json).

Definition params_t : Type := list (string * json).
Definition headers_t : Type := list (string * string).

(** The [json=payload] of the completion call. *)
Record payload_t : Type := {
  model : string;
  messages : list json;
  temperature : Q;
  max_tokens : Z;
  top_p : Q;
  stop : list string
}.

(** An outbound HTTP call. *)
Inductive call : Type :=
| GET (url : string) (params : option params_t) (headers : headers_t) (timeout : Z)
| POST (url : string) (headers : headers_t) (payload : payload_t) (timeout : Z).

(** The process environment and the two services.  Within one request no
    two calls carry the same URL and parameters, so a service is given by
    its answer to each. *)
Record env : Type := {
  LIBRARY_API_KEY : string;
  OPENROUTER_API_KEY : string;
  library_service : string -> option params_t -> http_reply;
  completion_service : payload_t -> http_reply
}.

(** *** Computations: a trace of calls, and exceptions *)

Definition M (A : Type) : Type := list call -> result A * list call.

Definition ret {A : Type} (a : A) : M A := fun tr => (Ok a, tr).

Definition raise {A : Type} (e : exn) : M A := fun tr => (Raise e, tr).

Definition bind {A B : Type} (c : M A) (k : A -> M B) : M B :=
  fun tr =>
    match c tr with
    | (Ok a, tr') => k a tr'
    | (Raise e, tr') => (Raise e, tr')
    end.

Definition lift {A : Type} (r : result A) : M A := fun tr => (r, tr).

(** [try: body  except: handler(e)]; the calls made stay made. *)
Definition try_except {A : Type} (body : M A) (handler : exn -> M A) : M A :=
  fun tr =>
    match body tr with
    | (Ok a, tr') => (Ok a, tr')
    | (Raise e, tr') => handler e tr'
    end.

Definition emit (c : call) : M unit := fun tr => (Ok tt, (tr ++ [c])%list).

Notation "x <- c ;; k" := (bind c (fun x => k))
  (at level 61, c at next level, right associativity).

Notation "x <~ r ;; k" := (rbind r (fun x => k))
  (at level 61, r at next level, right associativity).

(** [r.raise_for_status()]: an [HTTPError], which is a [RequestException],
    on 4xx and 5xx. *)
Definition raise_for_status (status : Z) : M unit :=
  if ((400 <=? status) && (status <? 600))%bool then raise RequestException else ret tt.

(** [r.json()] *)
Definition response_json (body : option json) : M json :=
  match body with
  | Some j => ret j
  | None => raise ValueError
  end.

Definition answer (r : http_reply) : M (Z * option json) :=
  match r with
  | ConnectionError => raise RequestException
  | Timeout => raise RequestException
  | Response status body => ret (status, body)
  end.

(** [requests.get(f"{LIBRARY_API_BASE}/{endpoint}", params=..., headers=..., timeout=5)] *)
Definition requests_get (e : env) (endpoint : string) (params : option params_t)
    (headers : headers_t) : M (Z * option json) :=
  _ <- emit (GET (LIBRARY_API_BASE ++ "/" ++ endpoint) params headers 5) ;;
  answer (library_service e endpoint params).

Definition COMPLETIONS_URL : string := "https://openrouter.ai/api/v1/chat/completions".

(** [requests.post(COMPLETIONS_URL, headers=..., json=payload, timeout=10)] *)
Definition requests_post (e : env) (headers : headers_t) (payload : payload_t)
    : M (Z * option json) :=
  _ <- emit (POST COMPLETIONS_URL headers payload 10) ;;
  answer (completion_service e payload).

(** *** The source's functions *)

Definition fetch_library_data (e : env) (endpoint : string) (params : option params_t)
    : M json :=
  try_except
    (let headers := [("Authorization", "Bearer " ++ LIBRARY_API_KEY e)] in
     r <- requests_get e endpoint params headers ;;
     _ <- raise_for_status (fst r) ;;
     response_json (snd r))
    (fun _ => ret JNull).

Definition get_campus_id (message : string) : Z :=
  if contains "siyabuswa" (lower message) then 2 else 1.

(** A [time_str] that is not a str makes [strptime] raise [TypeError],
    which the bare [except] catches like the [ValueError] of a str that
    does not parse. *)
Definition format_time (time_str : json) : json :=
  match time_str with
  | JStr s =>
      match Datetime.strptime s with
      | Ok (h, m) => JStr (Datetime.strftime h m)
      | Raise _ => time_str
      end
  | _ => time_str
  end.

Definition GATE_KEYWORDS : list string :=
  ["book"; "library"; "seat"; "computer"; "room";
   "announcement"; "hour"; "study room"; "venue"].

(** [request.context[-3:]] *)
Definition last3 {A : Type} (l : list A) : list A := skipn (length l - 3) l.

Definition message_dict (role content : string) : json :=
  JDict [("role", JStr role); ("content", JStr content)].

Definition reply (text : string) : list (string * json) := [("reply", JStr text)].

Definition BUSY_REPLY : string :=
  "Our systems are currently busy. Please try again in a moment.".

Definition DIFFICULTIES_REPLY : string :=
  "Apologies, I'm experiencing technical difficulties. Please contact help@ump.ac.za for immediate support.".

Definition CLARIFICATION : string :=
  "I’m sorry, I couldn’t find any books. Could you provide a title, author, or module code?".

(** [[f(x) for x in xs if cond(x)]] *)
Fixpoint comprehension {A B : Type} (cond : A -> result bool) (f : A -> result B)
    (xs : list A) : result (list B) :=
  match xs with
  | [] => Ok []
  | x :: t =>
      b <~ cond x ;;
      if b then y <~ f x ;; ys <~ comprehension cond f t ;; Ok (y :: ys)
      else comprehension cond f t
  end.

(** One line per record: the f-strings of the sub-intents. *)

Definition book_line (b : json) : result string :=
  title <~ dict_get b "title" (JStr "?") ;;
  author <~ dict_get b "author" (JStr "?") ;;
  copies <~ dict_get b "copies_available" (JInt 0) ;;
  Ok (str title ++ " by " ++ str author ++ " (Available: " ++ str copies ++ ")").

Definition computer_line (c : json) : result string :=
  identifier <~ item c "identifier" ;;
  specs <~ item c "specs" ;;
  is_occupied <~ item c "is_occupied" ;;
  Ok (str identifier ++ " (" ++ str specs ++ ") — "
      ++ (if truthy is_occupied then "Occupied" else "Free")).

Definition seat_is_free (s : json) : result bool :=
  is_occupied <~ item s "is_occupied" ;;
  Ok (negb (truthy is_occupied)).

Definition seat_line (s : json) : result string :=
  identifier <~ item s "identifier" ;;
  is_computer <~ item s "is_computer" ;;
  Ok (str identifier ++ " (" ++ (if truthy is_computer then "Computer" else "Study") ++ ")").

Definition announcement_line (a : json) : result string :=
  title <~ item a "title" ;;
  body <~ item a "body" ;;
  body50 <~ slice_to 50 body ;;
  Ok (str title ++ ": " ++ str body50 ++ "...").

Definition hours_line (day : json) : result string :=
  weekday <~ item day "weekday" ;;
  open_time <~ item day "open_time" ;;
  close_time <~ item day "close_time" ;;
  Ok (str weekday ++ ": " ++ str (format_time open_time)
      ++ " to " ++ str (format_time close_time)).

Definition study_room_line (r : json) : result string :=
  name <~ item r "name" ;;
  capacity <~ item r "capacity" ;;
  member_count <~ item r "member_count" ;;
  Ok (str name ++ " (" ++ str capacity ++ " seats, " ++ str member_count ++ " occupied)").

Definition computer_is_active (c : json) : result bool :=
  is_active <~ item c "is_active" ;;
  Ok (truthy is_active).

Definition active_computer_line (c : json) : result string :=
  identifier <~ item c "identifier" ;;
  specs <~ item c "specs" ;;
  Ok ("Computer " ++ str identifier ++ " (" ++ str specs ++ ")").

Definition room_line (r : json) : result string :=
  name <~ item r "name" ;;
  room_type <~ item r "room_type" ;;
  Ok (str name ++ " (" ++ str room_type ++ ")").

(** [header + "\n".join(line(x) for x in records[:n])] *)
Definition block_of_first (n : nat) (header : string) (line : json -> result string)
    (records : json) : result string :=
  sliced <~ slice_to n records ;;
  xs <~ iter sliced ;;
  lines <~ rmap line xs ;;
  Ok (header ++ LF ++ join LF lines).

(** [header + "\n".join([line(x) for x in records])] *)
Definition block_of_all (header : string) (line : json -> result string)
    (records : json) : result string :=
  xs <~ iter records ;;
  lines <~ rmap line xs ;;
  Ok (header ++ LF ++ join LF lines).

(** 1. Book Search (lines 197-227) *)
Definition book_search (e : env) (message : string) : M string :=
  let module_code := Re.search_module_code message in
  let params :=
    ([("q", JStr message)]
     ++ match module_code with Some c => [("module", JStr c)] | None => [] end)%list in
  raw <- fetch_library_data e "books" (Some params) ;;
  found <- lift (if is_dict raw
                 then v <~ dict_get raw "items" JNull ;; Ok (truthy v)
                 else Ok false) ;;
  items <- lift (if found then item raw "items"
                 else if is_list raw then Ok raw
                 else Ok (JList [])) ;;
  items <- (if negb (truthy items)
            then raw2 <- fetch_library_data e "books"
                           (Some [("page", JInt 1); ("per_page", JInt 5)]) ;;
                 lift (dict_get raw2 "items" (if is_list raw2 then raw2 else JList []))
            else ret items) ;;
  if truthy items
  then lift (block_of_first 5 "Here are some books you might like:" book_line items)
  else ret CLARIFICATION.

(** The sub-intents after the book search (lines 229-292): one fetch, then
    a text when the fetch gave something. *)
Definition fetch_and_format (e : env) (endpoint : string) (params : option params_t)
    (format : json -> result string) : M string :=
  data <- fetch_library_data e endpoint params ;;
  if truthy data then lift (format data) else ret "".

Definition seats_block (seats : json) : result string :=
  xs <~ iter seats ;;
  free <~ rfilter seat_is_free xs ;;
  lines <~ rmap seat_line (firstn 5 free) ;;
  Ok ("Available Seats:" ++ LF ++ join LF lines).

Definition active_computers_block (computers : json) : result string :=
  sliced <~ slice_to 3 computers ;;
  xs <~ iter sliced ;;
  computer_list <~ comprehension computer_is_active active_computer_line xs ;;
  Ok ("Available Computers:" ++ LF ++ join LF computer_list).

(** The [if]/[elif] chain of lines 197-292, [library_context] being its
    result ([""] when no branch assigns it). *)
Definition sub_intent (e : env) (message user_message : string) : M string :=
  let campus_id := get_campus_id message in
  let has kw := contains kw user_message in
  if (has "book" || has "textbook")%bool then
    book_search e message
  else if has "computer" then
    fetch_and_format e ("libraries/" ++ of_Z campus_id ++ "/computers") None
      (block_of_first 5 "Available Computers:" computer_line)
  else if has "seat" then
    fetch_and_format e ("libraries/" ++ of_Z campus_id ++ "/seats/availability") None
      seats_block
  else if (has "announcement" || has "news")%bool then
    fetch_and_format e "announcements" (Some [("limit", JInt 3)])
      (block_of_all "Latest Announcements:" announcement_line)
  else if (has "hour" || has "open" || has "close")%bool then
    fetch_and_format e ("libraries/" ++ of_Z campus_id ++ "/hours") None
      (block_of_all "Library Hours:" hours_line)
  else if (has "study room" || has "group study")%bool then
    fetch_and_format e "study_rooms" None
      (block_of_first 3 "Study Rooms:" study_room_line)
  else if has "computer" then
    fetch_and_format e ("libraries/" ++ of_Z campus_id ++ "/computers") None
      active_computers_block
  else if (has "room" || has "venue")%bool then
    fetch_and_format e ("libraries/" ++ of_Z campus_id ++ "/rooms") None
      (block_of_all "Available Rooms:" room_line)
  else ret "".

(** Lines 189-292: the gate, then the chain. *)
Definition library_context_of (e : env) (message user_message : string) : M string :=
  if existsb (fun keyword => contains keyword user_message) GATE_KEYWORDS
  then sub_intent e message user_message
  else ret "".

(** Lines 180-187 and 294-303: the conversation. *)
Definition conversation (request : ChatRequest) (library_context : string) : list json :=
  let messages := [SCCS_SYSTEM_PROMPT] in
  let messages :=
    match context request with
    | Some ((_ :: _) as ctx) => (messages ++ last3 ctx)%list
    | _ => messages
    end in
  let messages :=
    if negb (is_empty library_context)
    then (messages ++ [message_dict "system" library_context])%list
    else messages in
  (messages ++ [message_dict "user" (message request)])%list.

Definition completion_payload (msgs : list json) : payload_t :=
  {| model := MODEL_VERSION;
     messages := msgs;
     temperature := 7 # 10;
     max_tokens := 500;
     top_p := 9 # 10;
     stop := ["</response>"; "User:"; "System:"] |}.

Definition completion_headers (e : env) : headers_t :=
  [("Authorization", "Bearer " ++ OPENROUTER_API_KEY e);
   ("HTTP-Referer", "https://ump.ac.za/sccs");
   ("X-Title", "SCCS AI Assistant")].

(** [result["choices"][0]["message"]["content"]], then
    [.replace("OpenRouter", "SCCS").strip()] *)
Definition ai_message_of (result : json) : Py.result string :=
  choices <~ item result "choices" ;;
  first <~ item0 choices ;;
  msg <~ item first "message" ;;
  content <~ item msg "content" ;;
  match content with
  | JStr s => Ok (strip (replace "OpenRouter" "SCCS" s))
  | _ => Raise AttributeError
  end.

(** [async def chat_endpoint(request)]: the dict it returns. *)
Definition chat_endpoint (e : env) (request : ChatRequest) : M (list (string * json)) :=
  try_except
    (_ <- (if is_empty (strip (message request))
           then raise (HTTPException 400 "Empty message")
           else ret tt) ;;
     let user_message := lower (message request) in
     library_context <- library_context_of e (message request) user_message ;;
     let payload := completion_payload (conversation request library_context) in
     response <- try_except
                   (r <- requests_post e (completion_headers e) payload ;;
                    _ <- raise_for_status (fst r) ;;
                    ret (Some r))
                   (fun ex =>
                      match ex with
                      | RequestException => ret None
                      | _ => raise ex
                      end) ;;
     match response with
     | None => ret (reply BUSY_REPLY)
     | Some r =>
         result <- response_json (snd r) ;;
         ai_message <- lift (ai_message_of result) ;;
         ret (reply ai_message)
     end)
    (fun _ => ret (reply DIFFICULTIES_REPLY)).

(** *** The framework around the endpoint *)

(** What the caller of [POST /chat] gets. *)
Record http_response : Type := {
  status : Z;
  content : list (string * json)
}.

(** How FastAPI answers for a route function: 200 with the dict it returns,
    the status and detail of an [HTTPException] it raises, 500 otherwise. *)
Definition respond (r : result (list (string * json))) : http_response :=
  match r with
  | Ok d => {| status := 200; content := d |}
  | Raise (HTTPException code detail) =>
      {| status := code; content := [("detail", JStr detail)] |}
  | Raise _ => {| status := 500; content := [] |}
  end.

(** One request from start to end: the response and the calls made. *)
Definition serve (e : env) (request : ChatRequest) : http_response * list call :=
  let '(r, tr) := chat_endpoint e request [] in (respond r, tr).

Definition library_calls (tr : list call) : list call :=
  filter (fun c => match c with GET _ _ _ _ => true | POST _ _ _ _ => false end) tr.

Definition completion_calls (tr : list call) : list call :=
  filter (fun c => match c with POST _ _ _ _ => true | GET _ _ _ _ => false end) tr.

End Chatbot.

(** ** Vocabulary of the specification *)

Module Spec.
Import PyStr Py Chatbot.

(** The data service "failed": no answer, a 4xx or 5xx status, or a body
    that is not JSON. *)
Definition library_failure (r : http_reply) : Prop :=
  match r with
  | ConnectionError | Timeout => True
  | Response st body => 400 <= st < 600 \/ body = None
  end.

(** The completion call "failed" for [requests]: no answer, or a status
    that [raise_for_status] raises on. *)
Definition completion_failure (r : http_reply) : Prop :=
  match r with
  | ConnectionError | Timeout => True
  | Response st _ => 400 <= st < 600
  end.

(** What the caller of [fetch_library_data] holds after a reply. *)
Definition fetched (r : http_reply) : json :=
  match r with
  | Response st (Some j) => if ((400 <=? st) && (st <? 600))%bool then JNull else j
  | _ => JNull
  end.

(** The call [fetch_library_data] makes for [endpoint] and [params]. *)
Definition library_get (e : env) (endpoint : string) (params : option params_t) : call :=
  GET (LIBRARY_API_BASE ++ "/" ++ endpoint) params
      [("Authorization", "Bearer " ++ LIBRARY_API_KEY e)] 5.

(** The prior context of a request, empty when none is given. *)
Definition prior_context (request : ChatRequest) : list json :=
  match context request with Some ctx => ctx | None => [] end.

(** [[systemPrompt] + last3(context) + [optional enrichmentMessage] + [userMessage]] *)
Definition spec_conversation (ctx : list json) (enrichment msg : string) : list json :=
  ([SCCS_SYSTEM_PROMPT]
   ++ last3 ctx
   ++ (if is_empty enrichment then [] else [message_dict "system" enrichment])
   ++ [message_dict "user" msg])%list.

(** The numerals of [n]: two digits, and one digit too when [n < 10]. *)
Definition numerals (n : nat) : list string :=
  Datetime.two_digits n
  :: (if Nat.ltb n 10 then [String (ascii_of_nat (48 + n)) ""] else []).

Definition numeral (n : nat) (s : string) : Prop := In s (numerals n).

(** The hour of the 12-hour clock. *)
Definition twelve_hour (h : nat) : nat :=
  if Nat.eqb h 0 then 12%nat else if Nat.leb h 12 then h else (h - 12)%nat.

(** Hour [h], minute [m] on the 12-hour clock with its AM or PM. *)
Definition twelve_hour_text (h m : nat) : string :=
  Datetime.two_digits (twelve_hour h) ++ ":" ++ Datetime.two_digits m
  ++ (if Nat.ltb h 12 then " AM" else " PM").

(** [format_time] gives the 12-hour text of [h]:[m] for every numeral of
    [h] and of [m]. *)
Definition formats_as_twelve_hour (h m : nat) : bool :=
  forallb
    (fun hs =>
       forallb
         (fun ms =>
            match format_time (JStr (hs ++ ":" ++ ms)) with
            | JStr t => String.eqb t (twelve_hour_text h m)
            | _ => false
            end)
         (numerals m))
    (numerals h).

(** The texts of a 24-hour time: hour 0-23, a colon, minute 0-59. *)
Definition clock_text (s : string) : Prop :=
  exists h m hs ms,
    (h < 24)%nat /\ (m < 60)%nat /\ numeral h hs /\ numeral m ms /\ s = hs ++ ":" ++ ms.

(** Three capital letters and four digits somewhere in [s]. *)
Definition has_code_token (s : string) : Prop :=
  exists pre a b c d e f g post,
    s = pre ++ String a (String b (String c (String d (String e (String f (String g post))))))
    /\ is_upper a = true /\ is_upper b = true /\ is_upper c = true
    /\ is_digit d = true /\ is_digit e = true /\ is_digit f = true /\ is_digit g = true.

(** The last character of [s], if any. *)
Fixpoint last_char (s : string) : option ascii :=
  match s with
  | EmptyString => None
  | String c EmptyString => Some c
  | String _ t => last_char t
  end.

(** Every character of [s] is white space. *)
Fixpoint all_space (s : string) : bool :=
  match s with
  | EmptyString => true
  | String c t => (is_space c && all_space t)%bool
  end.

(** The items the book search holds after its first call. *)
Definition first_items (raw : json) : json :=
  match raw with
  | JDict d =>
      match lookup "items" d with
      | Some v => if truthy v then v else JList []
      | None => JList []
      end
  | JList _ => raw
  | _ => JList []
  end.

(** The parameters of the search call: the message as typed under "q",
    and the module code under "module" when the message has one. *)
Definition book_params (msg : string) : params_t :=
  ([("q", JStr msg)]
   ++ match Re.search_module_code msg with
      | Some c => [("module", JStr c)]
      | None => []
      end)%list.

(** The parameters of the fallback call: the unfiltered first page. *)
Definition first_page : params_t := [("page", JInt 1); ("per_page", JInt 5)].

(** The field [k] of a record, [None] when it is absent. *)
Definition field (k : string) (record : json) : json :=
  match record with
  | JDict d => match lookup k d with Some v => v | None => JNull end
  | _ => JNull
  end.

(** [record] is a dict with the key [k]. *)
Definition has_field (k : string) (record : json) : Prop :=
  exists d v, record = JDict d /\ lookup k d = Some v.

(** The [is_occupied] flag of a seat, as a truth value. *)
Definition seat_occupied (s : json) : bool := truthy (field "is_occupied" s).

(** The line of a seat: its identifier, then "Computer" or "Study". *)
Definition seat_text (s : json) : string :=
  str (field "identifier" s)
  ++ " (" ++ (if truthy (field "is_computer" s) then "Computer" else "Study") ++ ")".

(** The module code of the specification's example. *)
Definition INF1511 : string := "INF1511".

(** The character before the token: the last of [pre], or [prev] when
    [pre] is empty. *)
Definition before (prev : option ascii) (pre : string) : option ascii :=
  match last_char pre with Some c => Some c | None => prev end.

(** The seats that get a line: the first five that are not occupied. *)
Definition shown_seats (seats : list json) : list json :=
  firstn 5 (filter (fun s => negb (seat_occupied s)) seats).

(** Every call of [c] is a call to the data service. *)
Definition gets_only {A : Type} (c : M A) : Prop :=
  forall tr, exists r gs,
    c tr = (r, (tr ++ gs)%list) /\ completion_calls gs = [] /\ library_calls gs = gs.

(** What the endpoint returns once the conversation is sent. *)
Definition after_completion (r : http_reply) : list (string * json) :=
  match r with
  | ConnectionError | Timeout => reply BUSY_REPLY
  | Response st body =>
      if ((400 <=? st) && (st <? 600))%bool then reply BUSY_REPLY
      else match body with
           | None => reply DIFFICULTIES_REPLY
           | Some j =>
               match ai_message_of j with
               | Ok text => reply text
               | Raise _ => reply DIFFICULTIES_REPLY
               end
           end
  end.

(** The completion call of a request whose enrichment is
    [library_context]. *)
Definition completion_post (e : env) (request : ChatRequest) (library_context : string)
    : call :=
  POST COMPLETIONS_URL (completion_headers e)
       (completion_payload (conversation request library_context)) 10.

(** One of the conditions of the [if]/[elif] chain holds. *)
Definition triggered (um : string) : bool :=
  let has kw := contains kw um in
  ((has "book" || has "textbook") || has "computer" || has "seat"
   || (has "announcement" || has "news")
   || (has "hour" || has "open" || has "close")
   || (has "study room" || has "group study")
   || (has "room" || has "venue"))%bool.

(** The messages for which the data service is asked: one of seven
    keywords, or "library" next to a word that only the chain knows. *)
Definition consulted (um : string) : bool :=
  let has kw := contains kw um in
  ((has "book" || has "seat" || has "computer" || has "room"
    || has "announcement" || has "hour" || has "venue")
   || (has "library"
       && (has "news" || has "open" || has "close" || has "group study")))%bool.

(** The chain of [sub_intent] without its second "computer" branch
    (lines 277-285). *)
Definition sub_intent_live (e : env) (message user_message : string) : M string :=
  let campus_id := get_campus_id message in
  let has kw := contains kw user_message in
  if (has "book" || has "textbook")%bool then
    book_search e message
  else if has "computer" then
    fetch_and_format e ("libraries/" ++ of_Z campus_id ++ "/computers") None
      (block_of_first 5 "Available Computers:" computer_line)
  else if has "seat" then
    fetch_and_format e ("libraries/" ++ of_Z campus_id ++ "/seats/availability") None
      seats_block
  else if (has "announcement" || has "news")%bool then
    fetch_and_format e "announcements" (Some [("limit", JInt 3)])
      (block_of_all "Latest Announcements:" announcement_line)
  else if (has "hour" || has "open" || has "close")%bool then
    fetch_and_format e ("libraries/" ++ of_Z campus_id ++ "/hours") None
      (block_of_all "Library Hours:" hours_line)
  else if (has "study room" || has "group study")%bool then
    fetch_and_format e "study_rooms" None
      (block_of_first 3 "Study Rooms:" study_room_line)
  else if (has "room" || has "venue")%bool then
    fetch_and_format e ("libraries/" ++ of_Z campus_id ++ "/rooms") None
      (block_of_all "Available Rooms:" room_line)
  else ret "".

(** The character [a] occurs in [s]. *)
Fixpoint has_char (a : ascii) (s : string) : bool :=
  match s with
  | EmptyString => false
  | String c t => (Ascii.eqb a c || has_char a t)%bool
  end.

(** [s] does not begin with white space. *)
Definition no_leading_space (s : string) : Prop :=
  match s with
  | EmptyString => True
  | String c _ => is_space c = false
  end.

(** The status is one that [raise_for_status] lets through. *)
Definition passes (st : Z) : Prop := st < 400 \/ 600 <= st.

(** [record.get(k, default)] of a dict. *)
Definition get_or (k : string) (default record : json) : json :=
  match record with
  | JDict d => match lookup k d with Some v => v | None => default end
  | _ => default
  end.

(** The line of a book: title, author and copies, with "?", "?" and 0 for
    what the record lacks. *)
Definition book_text (b : json) : string :=
  str (get_or "title" (JStr "?") b) ++ " by " ++ str (get_or "author" (JStr "?") b)
  ++ " (Available: " ++ str (get_or "copies_available" (JInt 0) b) ++ ")".

Definition BOOKS_HEADER : string := "Here are some books you might like:".

(** A Computer record, as far as the listing reads it. *)
Definition computer_record (c : json) : Prop :=
  has_field "identifier" c /\ has_field "specs" c /\ has_field "is_occupied" c.

Definition computer_text (c : json) : string :=
  str (field "identifier" c) ++ " (" ++ str (field "specs" c) ++ ") — "
  ++ (if truthy (field "is_occupied" c) then "Occupied" else "Free").

(** An Announcement record with an ASCII text as its body. *)
Definition announcement_record (a : json) : Prop :=
  has_field "title" a /\ exists s, field "body" a = JStr s /\ is_ascii s = true.

Definition body_text (a : json) : string :=
  match field "body" a with JStr s => s | _ => EmptyString end.

Definition announcement_text (a : json) : string :=
  str (field "title" a) ++ ": " ++ take 50 (body_text a) ++ "...".

(** An HoursEntry record. *)
Definition hours_record (day : json) : Prop :=
  has_field "weekday" day /\ has_field "open_time" day /\ has_field "close_time" day.

Definition hours_text (day : json) : string :=
  str (field "weekday" day) ++ ": " ++ str (format_time (field "open_time" day))
  ++ " to " ++ str (format_time (field "close_time" day)).

(** A StudyRoom record. *)
Definition study_room_record (r : json) : Prop :=
  has_field "name" r /\ has_field "capacity" r /\ has_field "member_count" r.

Definition study_room_text (r : json) : string :=
  str (field "name" r) ++ " (" ++ str (field "capacity" r) ++ " seats, "
  ++ str (field "member_count" r) ++ " occupied)".

(** A Room record. *)
Definition room_record (r : json) : Prop :=
  has_field "name" r /\ has_field "room_type" r.

Definition room_text (r : json) : string :=
  str (field "name" r) ++ " (" ++ str (field "room_type" r) ++ ")".

(** Three capital letters, then four digits, and nothing else. *)
Definition code_shape (m : string) : Prop :=
  exists a b c d e f g,
    m = String a (String b (String c (String d (String e (String f (String g ""))))))
    /\ is_upper a = true /\ is_upper b = true /\ is_upper c = true
    /\ is_digit d = true /\ is_digit e = true /\ is_digit f = true /\ is_digit g = true.

(** The 12-hour text of [h]:[m] is no 24-hour text. *)
Definition formatted_is_final (h m : nat) : bool :=
  match Datetime.strptime (Datetime.strftime h m) with
  | Ok _ => false
  | Raise _ => true
  end.

(** A system message and a user message, as the completion service gets
    them. *)
Definition system_message (text : string) : json :=
  JDict [("role", JStr "system"); ("content", JStr text)].

Definition user_message (text : string) : json :=
  JDict [("role", JStr "user"); ("content", JStr text)].

(** The body of the completion call for the conversation [msgs]. *)
Definition sent_payload (msgs : list json) : payload_t :=
  {| model := "openai/gpt-3.5-turbo-16k";
     messages := msgs;
     temperature := 7 # 10;
     max_tokens := 500;
     top_p := 9 # 10;
     stop := ["</response>"; "User:"; "System:"] |}.

(** The completion call for the conversation [msgs]. *)
Definition completion_request (e : env) (msgs : list json) : call :=
  POST "https://openrouter.ai/api/v1/chat/completions"
       [("Authorization", "Bearer " ++ OPENROUTER_API_KEY e);
        ("HTTP-Referer", "https://ump.ac.za/sccs");
        ("X-Title", "SCCS AI Assistant")]
       (sent_payload msgs) 10.

(** The conversation of a request whose enrichment is [enrichment]: the
    system prompt, the last three context messages, the enrichment as a
    system message when it is not empty, the user's message. *)
Definition sent_messages (request : ChatRequest) (enrichment : string) : list json :=
  ([system_message SCCS_SYSTEM_PROMPT_content]
   ++ last3 (prior_context request)
   ++ (if is_empty enrichment then [] else [system_message enrichment])
   ++ [user_message (message request)])%list.

End Spec.

(** ** Scenarios *)

Module Scenario.
Import PyStr Py Chatbot.

Definition request_of (msg : string) : ChatRequest :=
  {| message := msg; user_id := None; context := None |}.

(** The environment [e] with other services in place of its own. *)
Definition with_services (e : env)
    (lib : string -> option params_t -> http_reply)
    (completion : payload_t -> http_reply) : env :=
  {| LIBRARY_API_KEY := LIBRARY_API_KEY e;
     OPENROUTER_API_KEY := OPENROUTER_API_KEY e;
     library_service := lib;
     completion_service := completion |}.

Definition with_library (e : env) (lib : string -> option params_t -> http_reply) : env :=
  with_services e lib (completion_service e).

(** A completion body with one choice. *)
Definition completion_body (text : string) : json :=
  JDict [("choices", JList [JDict [("message", JDict [("content", JStr text)])]])].

Definition quiet : env :=
  {| LIBRARY_API_KEY := "112233445566778899";
     OPENROUTER_API_KEY := "sk-test";
     library_service := fun _ _ => Response 200 (Some (JList []));
     completion_service := fun _ => Response 200 (Some (completion_body "Hello!")) |}.

Definition monday : json :=
  JDict [("weekday", JStr "Monday"); ("open_time", JStr "08:00"); ("close_time", JStr "20:00")].

(** The data service does not answer. *)
Definition library_down (e : env) : env := with_library e (fun _ _ => Timeout).

(** The book search finds nothing and the first page is an empty list. *)
Definition no_books (e : env) : env :=
  with_library e
    (fun _ params =>
       match params with
       | Some (("q", _) :: _) => Response 200 (Some (JDict [("items", JList [])]))
       | _ => Response 200 (Some (JList []))
       end).

(** The data service answers 300 Multiple Choices, with Monday's hours as
    its body. *)
Definition multiple_choices (e : env) : env :=
  with_library e (fun _ _ => Response 300 (Some (JList [monday]))).

(** The completion service answers 304 Not Modified, without a body. *)
Definition not_modified (e : env) : env :=
  with_services e (library_service e) (fun _ => Response 304 None).

(** The completion service does not answer in time. *)
Definition completion_timeout (e : env) : env :=
  with_services e (library_service e) (fun _ => Timeout).

Definition seat (identifier : string) (is_occupied is_computer : bool) : json :=
  JDict [("identifier", JStr identifier);
         ("is_occupied", JBool is_occupied);
         ("is_computer", JBool is_computer)].

Definition three_seats : list json :=
  [seat "S1" false false; seat "S2" true false; seat "PC3" false true].

(** The seats service of campus 1 answers with [three_seats]. *)
Definition with_three_seats (e : env) : env :=
  with_library e
    (fun endpoint _ =>
       if String.eqb endpoint "libraries/1/seats/availability"
       then Response 200 (Some (JList three_seats))
       else Response 404 None).

Definition MONDAY_LINE : string := "Monday: 08:00 AM to 08:00 PM".

(** The hours service of the end-to-end scenario. *)
Definition monday_hours (e : env) : env :=
  with_library e
    (fun endpoint _ =>
       if String.eqb endpoint "libraries/1/hours"
       then Response 200 (Some (JList [monday]))
       else Response 404 None).

(** The completion service speaks of its provider. *)
Definition branded (e : env) : env :=
  with_services e (library_service e)
    (fun _ => Response 200 (Some (completion_body "  OpenRouter here, via OpenRouter.  "))).

(** The completion service answers with two choices. *)
Definition two_choices (e : env) : env :=
  with_services e (library_service e)
    (fun _ =>
       Response 200
         (Some (JDict [("id", JStr "gen-1");
                       ("choices",
                        JList [JDict [("message", JDict [("role", JStr "assistant");
                                                         ("content", JStr " First. ")])];
                               JDict [("message", JDict [("content", JStr "Second.")])]])]))).

(** The completion service answers 200 with no choice. *)
Definition no_choice (e : env) : env :=
  with_services e (library_service e)
    (fun _ => Response 200 (Some (JDict [("choices", JList [])]))).

Definition book (title author : string) (copies : Z) : json :=
  JDict [("title", JStr title); ("author", JStr author); ("copies_available", JInt copies)].

(** The book search answers with one full record and one bare one. *)
Definition two_books (e : env) : env :=
  with_library e
    (fun _ _ =>
       Response 200
         (Some (JDict [("items", JList [book "Databases" "Date" 3; JDict []]);
                       ("total", JInt 2)]))).

(** The book search finds nothing; the first page has one book. *)
Definition first_page_only (e : env) : env :=
  with_library e
    (fun _ params =>
       match params with
       | Some (("q", _) :: _) => Response 200 (Some (JDict [("items", JList [])]))
       | _ => Response 200 (Some (JDict [("items", JList [book "Algebra" "Lang" 0])]))
       end).

(** The seats service answers with a list whose last record lacks
    [is_occupied]. *)
Definition broken_seats (e : env) : env :=
  with_library e
    (fun _ _ =>
       Response 200
         (Some (JList [seat "S1" false false; JDict [("identifier", JStr "S2")]]))).

Definition computer (identifier specs : string) (is_occupied : bool) : json :=
  JDict [("identifier", JStr identifier); ("specs", JStr specs);
         ("is_occupied", JBool is_occupied); ("is_active", JBool true)].

Definition six_computers : list json :=
  [computer "PC1" "i5" false; computer "PC2" "i5" true; computer "PC3" "i7" false;
   computer "PC4" "i7" false; computer "PC5" "i3" true; JStr "out of order"].

(** The data service answers every call with [records]. *)
Definition answering (e : env) (records : list json) : env :=
  with_library e (fun _ _ => Response 200 (Some (JList records))).

Definition long_announcement : json :=
  JDict [("title", JStr "Exam hours");
         ("body", JStr "The library stays open until midnight during the whole examination period.")].

Definition study_room (name : string) (capacity member_count : Z) : json :=
  JDict [("name", JStr name); ("capacity", JInt capacity); ("member_count", JInt member_count)].

Definition room (name room_type : string) : json :=
  JDict [("name", JStr name); ("room_type", JStr room_type)].

Definition hours (weekday open_time close_time : string) : json :=
  JDict [("weekday", JStr weekday); ("open_time", JStr open_time);
         ("close_time", JStr close_time)].

Definition weekend_hours : list json :=
  [hours "Saturday" "8:00" "13:00"; hours "Sunday" "closed" "-"].

Definition four_study_rooms : list json :=
  [study_room "A" 6 2; study_room "B" 4 4; study_room "C" 8 0; study_room "D" 2 1].

Definition two_rooms : list json := [room "Auditorium" "venue"; room "Lab 2" "lab"].

(** Four earlier turns of a conversation. *)
Definition four_turns : list json :=
  [JDict [("role", JStr "user"); ("content", JStr "Hi")];
   JDict [("role", JStr "assistant"); ("content", JStr "Hello!")];
   JDict [("role", JStr "user"); ("content", JStr "Who are you?")];
   JDict [("role", JStr "assistant"); ("content", JStr "The SCCS assistant.")]].

Definition after_four_turns (msg : string) : ChatRequest :=
  {| message := msg; user_id := None; context := Some four_turns |}.

End Scenario.

(** * Properties *)

Import PyStr Py Chatbot Spec.

(** ** Strings *)

Lemma prefix_contains (b s : string) : prefix b s = true -> contains b s = true.
Proof. destruct s; simpl; intros ->; reflexivity. Qed.

Lemma contains_tail (b : string) (c : ascii) (s : string) :
  contains b s = true -> contains b (String c s) = true.
Proof. intros H. cbn [contains]. rewrite H. apply orb_true_r. Qed.

Lemma prefix_app_contains (a b : string) :
  forall s, prefix (a ++ b) s = true -> contains b s = true.
Proof.
  induction a as [|c a IH]; intros s H.
  - apply prefix_contains. exact H.
  - destruct s as [|c' s]; simpl in H; [discriminate|].
    destruct (ascii_dec c c'); [|discriminate].
    apply contains_tail, IH, H.
Qed.

(** An occurrence of [a ++ b] holds an occurrence of [b]. *)
Lemma contains_app_r (a b : string) :
  forall s, contains (a ++ b) s = true -> contains b s = true.
Proof.
  induction s as [|c s IH]; intros H; cbn [contains] in H.
  - rewrite orb_false_r in H. exact (prefix_app_contains a b ""%string H).
  - apply orb_true_iff in H. destruct H as [H|H].
    + apply (prefix_app_contains a b), H.
    + apply contains_tail, IH, H.
Qed.

Lemma no_book_no_textbook (s : string) :
  contains "book" s = false -> contains "textbook" s = false.
Proof.
  intros H. destruct (contains "textbook" s) eqn:E; [|reflexivity].
  apply (contains_app_r "text" "book") in E. congruence.
Qed.

Lemma rstrip_cons_not_space (c : ascii) (t : string) :
  is_space c = false -> rstrip (String c t) <> EmptyString.
Proof. intros Hc. cbn [rstrip]. destruct (rstrip t); rewrite ?Hc; discriminate. Qed.

Lemma strip_empty_all_space (s : string) :
  is_empty (strip s) = true -> all_space s = true.
Proof.
  induction s as [|c s IH]; [reflexivity|].
  unfold strip. cbn [lstrip all_space].
  destruct (is_space c) eqn:Hc.
  - exact IH.
  - intros H. destruct (rstrip (String c s)) eqn:E; [|discriminate].
    exfalso. exact (rstrip_cons_not_space c s Hc E).
Qed.

Lemma space_not_upper (c : ascii) : is_space c = true -> is_upper c = false.
Proof.
  unfold is_space, is_upper, between. intros H.
  apply orb_true_iff in H.
  apply andb_false_iff.
  destruct H as [H|H]; apply andb_true_iff in H; destruct H as [_ H];
    apply Nat.leb_le in H; left; apply Nat.leb_gt; lia.
Qed.

(** A blank text has no occurrence of a keyword that starts with a
    character other than a space. *)
Lemma all_space_no_keyword (k : ascii) (kw s : string) :
  is_space k = false -> all_space s = true -> contains (String k kw) (lower s) = false.
Proof.
  intros Hk. induction s as [|c s IH]; intros Hs.
  - reflexivity.
  - cbn [all_space] in Hs. apply andb_true_iff in Hs. destruct Hs as [Hc Hs].
    cbn [lower contains]. rewrite (IH Hs), orb_false_r.
    unfold lower_char. rewrite (space_not_upper c Hc). simpl.
    destruct (ascii_dec k c); [subst; congruence | reflexivity].
Qed.

Lemma keyword_not_blank (k : ascii) (kw s : string) :
  is_space k = false -> contains (String k kw) (lower s) = true ->
  is_empty (strip s) = false.
Proof.
  intros Hk Hc. destruct (is_empty (strip s)) eqn:E; [|reflexivity].
  apply strip_empty_all_space in E.
  rewrite (all_space_no_keyword k kw s Hk E) in Hc. discriminate.
Qed.

(** ** The data client *)

Lemma fetch_library_data_run (e : env) (endpoint : string) (params : option params_t)
    (tr : list call) :
  fetch_library_data e endpoint params tr
  = (Ok (fetched (library_service e endpoint params)),
     (tr ++ [library_get e endpoint params])%list).
Proof.
  unfold fetch_library_data, try_except, requests_get, bind, emit, answer,
    raise_for_status, response_json, fetched, library_get, ret, raise.
  destruct (library_service e endpoint params) as [| |st [j|]]; cbn [fst snd];
    try reflexivity;
    destruct ((400 <=? st) && (st <? 600))%bool; reflexivity.
Qed.

(** The client never raises, and a failure of the service leaves its caller
    with [None]. *)
Lemma fetch_library_data_failure (e : env) (endpoint : string) (params : option params_t)
    (tr : list call) :
  library_failure (library_service e endpoint params) ->
  fst (fetch_library_data e endpoint params tr) = Ok JNull.
Proof.
  rewrite fetch_library_data_run. cbn [fst]. unfold library_failure, fetched.
  destruct (library_service e endpoint params) as [| |st [j|]]; try reflexivity.
  intros [H|H]; [|discriminate].
  replace ((400 <=? st) && (st <? 600))%bool with true; [reflexivity|].
  symmetry. apply andb_true_iff. split; [apply Z.leb_le | apply Z.ltb_lt]; lia.
Qed.

Lemma fetch_and_format_run (e : env) (endpoint : string) (params : option params_t)
    (format : json -> result string) (tr : list call) :
  fetch_and_format e endpoint params format tr
  = ((if truthy (fetched (library_service e endpoint params))
      then format (fetched (library_service e endpoint params))
      else Ok ""%string),
     (tr ++ [library_get e endpoint params])%list).
Proof.
  unfold fetch_and_format, bind. rewrite fetch_library_data_run.
  destruct (truthy _); reflexivity.
Qed.

(** ** The endpoint never answers with an error status *)

Lemma chat_endpoint_returns (e : env) (request : ChatRequest) (tr : list call) :
  exists d, fst (chat_endpoint e request tr) = Ok d.
Proof.
  unfold chat_endpoint, try_except.
  match goal with |- context [match ?b tr with _ => _ end] => destruct (b tr) as [[d|ex] tr'] end.
  - exists d. reflexivity.
  - eexists. reflexivity.
Qed.

Lemma serve_status_200 (e : env) (request : ChatRequest) :
  status (fst (serve e request)) = 200.
Proof.
  unfold serve. destruct (chat_endpoint_returns e request []) as [d Hd].
  destruct (chat_endpoint e request []) as [r tr]. cbn [fst] in *. subst r. reflexivity.
Qed.

Lemma blank_message_run (e : env) (request : ChatRequest) :
  is_empty (strip (message request)) = true ->
  serve e request = ({| status := 200; content := reply DIFFICULTIES_REPLY |}, []).
Proof.
  intros H. unfold serve, chat_endpoint, try_except, bind. rewrite H. reflexivity.
Qed.

Lemma all_space_lstrip (s : string) : all_space s = true -> lstrip s = ""%string.
Proof.
  induction s as [|c s IH]; [reflexivity|].
  cbn [all_space lstrip]. intros H. apply andb_true_iff in H. destruct H as [Hc Hs].
  rewrite Hc. exact (IH Hs).
Qed.

Lemma all_space_blank (s : string) : all_space s = true -> is_empty (strip s) = true.
Proof. intros H. unfold strip. rewrite (all_space_lstrip s H). reflexivity. Qed.

(** C1 (the code departs from the claim): a message that is empty or all
    white space is answered with status 200 and the "technical
    difficulties" reply, not with a 400: the [HTTPException] raised for it
    is caught by the endpoint's own [except Exception].  No outbound call
    is made. *)
Theorem C1_blank_message_answered_200 :
  forall (e : env) (request : ChatRequest),
    all_space (message request) = true ->
    chat_endpoint e request [] = (Ok (reply DIFFICULTIES_REPLY), [])
    /\ serve e request = ({| status := 200; content := reply DIFFICULTIES_REPLY |}, []).
Proof.
  intros e request H. apply all_space_blank in H. split.
  - unfold chat_endpoint, try_except, bind. rewrite H. reflexivity.
  - apply blank_message_run. exact H.
Qed.

Lemma C1_blank_message_answered_200_witness :
  serve Scenario.quiet (Scenario.request_of "   ")
  = ({| status := 200; content := reply DIFFICULTIES_REPLY |}, []).
Proof.
  apply (C1_blank_message_answered_200 Scenario.quiet (Scenario.request_of "   ")).
  reflexivity.
Defined.

(** ** The book search, step by step *)

Lemma book_search_run (e : env) (msg : string) (tr : list call) :
  book_search e msg tr
  = let raw := fetched (library_service e "books" (Some (book_params msg))) in
    let raw2 := fetched (library_service e "books" (Some first_page)) in
    if truthy (first_items raw)
    then (block_of_first 5 "Here are some books you might like:" book_line (first_items raw),
          (tr ++ [library_get e "books" (Some (book_params msg))])%list)
    else (rbind (dict_get raw2 "items" (if is_list raw2 then raw2 else JList []))
            (fun items =>
               if truthy items
               then block_of_first 5 "Here are some books you might like:" book_line items
               else Ok CLARIFICATION),
          ((tr ++ [library_get e "books" (Some (book_params msg))])
             ++ [library_get e "books" (Some first_page)])%list).
Proof.
  unfold book_search, bind. fold (book_params msg). rewrite fetch_library_data_run.
  cbv zeta. unfold params_t in *.
  match goal with |- context [is_dict ?raw] => destruct raw as [|b|z|s|l|d] end;
    cbn [is_dict is_list lift dict_get rbind item first_items truthy negb];
    try (rewrite fetch_library_data_run; fold first_page;
         destruct (dict_get _ _ _) as [items|ex]; cbn [rbind lift];
         [destruct (truthy items)|]; reflexivity).
  - destruct l as [|x l]; cbn [truthy negb ret].
    + rewrite fetch_library_data_run. fold first_page.
      destruct (dict_get _ _ _) as [items|ex]; cbn [rbind lift];
        [destruct (truthy items)|]; reflexivity.
    + reflexivity.
  - destruct (lookup "items" d) as [v|] eqn:Hv; cbn [truthy negb].
    + destruct (truthy v) eqn:Tv; cbn [truthy negb ret].
      * rewrite Tv. cbn [negb]. unfold ret, lift. rewrite Tv. reflexivity.
      * rewrite fetch_library_data_run. fold first_page.
        destruct (dict_get _ _ _) as [items|ex]; cbn [rbind lift];
          [destruct (truthy items)|]; reflexivity.
    + rewrite fetch_library_data_run. fold first_page.
      destruct (dict_get _ _ _) as [items|ex]; cbn [rbind lift];
        [destruct (truthy items)|]; reflexivity.
Qed.

(** A search without items is followed by one call for the first page. *)
Lemma book_search_falls_back_once (e : env) (msg : string) :
  truthy (first_items (fetched (library_service e "books" (Some (book_params msg))))) = false ->
  snd (book_search e msg [])
  = [library_get e "books" (Some (book_params msg)); library_get e "books" (Some first_page)].
Proof. intros H. rewrite book_search_run. cbv zeta. rewrite H. reflexivity. Qed.

(** When that first page comes as a dict without items, the text asks for
    a title, author or module code. *)
Lemma book_search_clarifies (e : env) (msg : string) (d : list (string * json)) :
  truthy (first_items (fetched (library_service e "books" (Some (book_params msg))))) = false ->
  fetched (library_service e "books" (Some first_page)) = JDict d ->
  truthy (field "items" (JDict d)) = false ->
  fst (book_search e msg []) = Ok CLARIFICATION.
Proof.
  intros H H2 H3. rewrite book_search_run. cbv zeta. rewrite H, H2.
  cbn [fst is_list dict_get rbind]. unfold field in H3.
  destruct (lookup "items" d) as [v|]; [rewrite H3|]; reflexivity.
Qed.

(** When it is no dict ([None] of a failed fetch, or a list), the search
    raises. *)
Lemma book_search_raises (e : env) (msg : string) :
  truthy (first_items (fetched (library_service e "books" (Some (book_params msg))))) = false ->
  is_dict (fetched (library_service e "books" (Some first_page))) = false ->
  fst (book_search e msg []) = Raise AttributeError.
Proof.
  intros H H2. rewrite book_search_run. cbv zeta. rewrite H.
  destruct (fetched (library_service e "books" (Some first_page))); try discriminate; reflexivity.
Qed.

(** ** The calls of the router are calls to the data service *)

Lemma gets_only_ret {A : Type} (a : A) : gets_only (ret a).
Proof. intros tr. exists (Ok a), []. rewrite app_nil_r. repeat split. Qed.

Lemma gets_only_fetch_and_format (e : env) (endpoint : string) (params : option params_t)
    (format : json -> result string) :
  gets_only (fetch_and_format e endpoint params format).
Proof.
  intros tr. rewrite fetch_and_format_run. eexists _, [_]. repeat split.
Qed.

Lemma gets_only_book_search (e : env) (msg : string) : gets_only (book_search e msg).
Proof.
  intros tr. rewrite book_search_run. cbv zeta.
  destruct (truthy (first_items _)).
  - eexists _, [_]. repeat split.
  - eexists _, [_; _]. rewrite <- app_assoc. repeat split.
Qed.

Lemma gets_only_sub_intent (e : env) (msg um : string) : gets_only (sub_intent e msg um).
Proof.
  unfold sub_intent. cbv zeta.
  repeat match goal with
         | |- gets_only (if ?b then _ else _) => destruct b
         end;
    first [ apply gets_only_book_search
          | apply gets_only_fetch_and_format
          | apply gets_only_ret ].
Qed.

Lemma gets_only_library_context_of (e : env) (msg um : string) :
  gets_only (library_context_of e msg um).
Proof.
  unfold library_context_of.
  destruct (existsb _ _); [apply gets_only_sub_intent | apply gets_only_ret].
Qed.

(** ** The endpoint, step by step *)

Lemma chat_endpoint_run (e : env) (request : ChatRequest) :
  is_empty (strip (message request)) = false ->
  chat_endpoint e request []
  = match library_context_of e (message request) (lower (message request)) [] with
    | (Raise _, tr) => (Ok (reply DIFFICULTIES_REPLY), tr)
    | (Ok lc, tr) =>
        (Ok (after_completion
               (completion_service e (completion_payload (conversation request lc)))),
         (tr ++ [completion_post e request lc])%list)
    end.
Proof.
  intros H. unfold chat_endpoint, try_except, bind. rewrite H. cbn [ret].
  destruct (library_context_of e (message request) (lower (message request)) [])
    as [[lc|ex] tr]; [|reflexivity].
  unfold requests_post, bind, emit, answer, after_completion, completion_post.
  destruct (completion_service e (completion_payload (conversation request lc)))
    as [| |st body]; try reflexivity.
  unfold raise_for_status, ret, raise. cbn [fst snd].
  destruct ((400 <=? st) && (st <? 600))%bool; [reflexivity|].
  unfold response_json, lift, ret, raise. cbn [fst snd].
  destruct body as [j|]; [|reflexivity].
  destruct (ai_message_of j); reflexivity.
Qed.

(** ** The conversation *)

Lemma last3_suffix {A : Type} (ctx : list A) :
  exists older, ctx = (older ++ last3 ctx)%list /\ length (last3 ctx) = Nat.min 3 (length ctx).
Proof.
  exists (firstn (length ctx - 3) ctx). unfold last3. split.
  - symmetry. apply firstn_skipn.
  - rewrite length_skipn. lia.
Qed.

Lemma conversation_spec (request : ChatRequest) (lc : string) :
  conversation request lc = spec_conversation (prior_context request) lc (message request).
Proof.
  unfold conversation, spec_conversation, prior_context.
  destruct (context request) as [[|x ctx]|]; destruct (is_empty lc);
    cbn [negb]; rewrite <- ?app_assoc; reflexivity.
Qed.

(** The completion call, spelled out. *)
Lemma completion_post_sent (e : env) (request : ChatRequest) (lc : string) :
  completion_post e request lc = completion_request e (sent_messages request lc).
Proof. unfold completion_post. rewrite conversation_spec. reflexivity. Qed.

Lemma completion_calls_app (a b : list call) :
  completion_calls (a ++ b) = (completion_calls a ++ completion_calls b)%list.
Proof. apply filter_app. Qed.

Lemma library_calls_app (a b : list call) :
  library_calls (a ++ b) = (library_calls a ++ library_calls b)%list.
Proof. apply filter_app. Qed.

(** The router's run from an empty trace: its calls are data calls. *)
Lemma library_context_of_calls (e : env) (msg um : string) :
  completion_calls (snd (library_context_of e msg um [])) = []
  /\ library_calls (snd (library_context_of e msg um []))
     = snd (library_context_of e msg um []).
Proof.
  destruct (gets_only_library_context_of e msg um []) as (r & gs & Hrun & Hc & Hl).
  rewrite Hrun. cbn [snd app]. split; assumption.
Qed.

(** C5: for a message in ASCII, the completion call, when one is made,
    carries as its "messages" the system prompt, then the last three
    context messages in their order, then the enrichment as one message of
    role "system" when its text is not empty, then the user's message as
    the last, of role "user"; no call is made for a blank message or when
    the router raised. *)
Theorem C5_conversation_sent :
  forall (e : env) (request : ChatRequest),
    is_ascii (message request) = true ->
    let system text := JDict [("role", JStr "system"); ("content", JStr text)] in
    let user text := JDict [("role", JStr "user"); ("content", JStr text)] in
    completion_calls (snd (serve e request))
    = (if is_empty (strip (message request)) then []
       else match fst (library_context_of e (message request) (lower (message request)) []) with
            | Ok enrichment =>
                [POST COMPLETIONS_URL (completion_headers e)
                   {| model := MODEL_VERSION;
                      messages :=
                        ([system SCCS_SYSTEM_PROMPT_content]
                         ++ last3 (prior_context request)
                         ++ (if is_empty enrichment then [] else [system enrichment])
                         ++ [user (message request)])%list;
                      temperature := 7 # 10;
                      max_tokens := 500;
                      top_p := 9 # 10;
                      stop := ["</response>"; "User:"; "System:"] |} 10]
            | Raise _ => []
            end)
    /\ exists older,
         prior_context request = (older ++ last3 (prior_context request))%list
         /\ length (last3 (prior_context request))
            = Nat.min 3 (length (prior_context request)).
Proof.
  intros e request Hascii system user. split; [|apply last3_suffix].
  destruct (is_empty (strip (message request))) eqn:Hb.
  - rewrite (blank_message_run e request Hb). reflexivity.
  - unfold serve. rewrite (chat_endpoint_run e request Hb).
    destruct (library_context_of_calls e (message request) (lower (message request)))
      as [Hc _].
    destruct (library_context_of e (message request) (lower (message request)) [])
      as [[lc|ex] tr]; cbn [fst snd] in *.
    + rewrite completion_calls_app, Hc. unfold completion_post.
      rewrite conversation_spec. reflexivity.
    + exact Hc.
Qed.

Lemma C5_conversation_sent_witness :
  completion_calls (snd (serve Scenario.quiet (Scenario.after_four_turns "Thanks!")))
  = [completion_request Scenario.quiet
       [system_message SCCS_SYSTEM_PROMPT_content;
        JDict [("role", JStr "assistant"); ("content", JStr "Hello!")];
        JDict [("role", JStr "user"); ("content", JStr "Who are you?")];
        JDict [("role", JStr "assistant"); ("content", JStr "The SCCS assistant.")];
        user_message "Thanks!"]].
Proof.
  exact (proj1 (C5_conversation_sent Scenario.quiet (Scenario.after_four_turns "Thanks!")
                  eq_refl)).
Defined.

(** ** Routing *)

Lemma gate_opens (um kw : string) :
  In kw GATE_KEYWORDS -> contains kw um = true ->
  existsb (fun keyword => contains keyword um) GATE_KEYWORDS = true.
Proof. intros Hin Hc. apply existsb_exists. exists kw. split; assumption. Qed.

Lemma serve_library_calls (e : env) (request : ChatRequest) :
  is_empty (strip (message request)) = false ->
  library_calls (snd (serve e request))
  = snd (library_context_of e (message request) (lower (message request)) []).
Proof.
  intros Hb. unfold serve. rewrite (chat_endpoint_run e request Hb).
  destruct (library_context_of_calls e (message request) (lower (message request)))
    as [_ Hl].
  destruct (library_context_of e (message request) (lower (message request)) [])
    as [[lc|ex] tr]; cbn [fst snd] in *.
  - rewrite library_calls_app, Hl. unfold completion_post. cbn. apply app_nil_r.
  - exact Hl.
Qed.

(** C4: a message in ASCII with "computer" and without "seat" and "book"
    takes the computer branch that follows the book search, and its one
    call to the data service asks for the computers of the campus, whatever
    else ("room" included) the message says. *)
Theorem C4_computer_has_priority :
  forall (e : env) (request : ChatRequest),
    let um := lower (message request) in
    let endpoint := ("libraries/" ++ of_Z (get_campus_id (message request)) ++ "/computers")%string in
    is_ascii (message request) = true ->
    contains "computer" um = true ->
    contains "seat" um = false ->
    contains "book" um = false ->
    sub_intent e (message request) um
    = fetch_and_format e endpoint None (block_of_first 5 "Available Computers:" computer_line)
    /\ library_calls (snd (serve e request)) = [library_get e endpoint None].
Proof.
  intros e request um endpoint Hascii Hc Hs Hb.
  assert (Hsub : sub_intent e (message request) um
                 = fetch_and_format e endpoint None
                     (block_of_first 5 "Available Computers:" computer_line)).
  { unfold sub_intent. cbv zeta. fold um.
    rewrite Hb, (no_book_no_textbook um Hb), Hc. reflexivity. }
  split; [exact Hsub|].
  rewrite serve_library_calls
    by (apply (keyword_not_blank "c" "omputer"); [reflexivity | exact Hc]).
  unfold library_context_of. fold um.
  rewrite (gate_opens um "computer") by (simpl; tauto || exact Hc).
  rewrite Hsub, fetch_and_format_run. reflexivity.
Qed.

Lemma C4_computer_has_priority_witness :
  library_calls (snd (serve Scenario.quiet
                        (Scenario.request_of "Is a computer free in the study room?")))
  = [library_get Scenario.quiet "libraries/1/computers" None].
Proof.
  apply (C4_computer_has_priority Scenario.quiet
           (Scenario.request_of "Is a computer free in the study room?"));
    reflexivity.
Defined.

Lemma sub_intent_calls_when_chosen (e : env) (msg um : string) :
  (contains "news" um || contains "open" um || contains "close" um
   || contains "group study" um)%bool = true ->
  snd (sub_intent e msg um []) <> [].
Proof.
  intros Ht. unfold sub_intent. cbv zeta.
  destruct (contains "news" um) eqn:E1;
    destruct (contains "open" um) eqn:E2;
    destruct (contains "close" um) eqn:E3;
    destruct (contains "group study" um) eqn:E4; try discriminate Ht;
    rewrite ?orb_true_r, ?orb_false_r;
    repeat match goal with
           | |- context [if ?b then _ else _] => destruct b
           end;
    rewrite ?fetch_and_format_run, ?book_search_run; cbv zeta;
    try (destruct (truthy (first_items _))); cbn [snd app]; discriminate.
Qed.

(** C9: a message in ASCII with "news", "open", "close" or "group study"
    and none of the nine gate keywords makes no call to the data service
    and goes to the completion service without enrichment: the system
    prompt, the last three context messages and the user's message; the
    chain behind the gate would have made a data call for it. *)
Theorem C9_gate_before_triggers :
  forall (e : env) (request : ChatRequest),
    let um := lower (message request) in
    is_ascii (message request) = true ->
    (contains "news" um || contains "open" um || contains "close" um
     || contains "group study" um)%bool = true ->
    (existsb (fun keyword => contains keyword um) GATE_KEYWORDS = false ->
     library_context_of e (message request) um [] = (Ok ""%string, [])
     /\ library_calls (snd (serve e request)) = []
     /\ snd (serve e request)
        = [completion_request e
             ([system_message SCCS_SYSTEM_PROMPT_content]
              ++ last3 (prior_context request)
              ++ [user_message (message request)])])
    /\ snd (sub_intent e (message request) um []) <> [].
Proof.
  intros e request um Hascii Ht. split; [|apply sub_intent_calls_when_chosen, Ht].
  intros Hg.
  assert (Hb : is_empty (strip (message request)) = false).
  { fold um in Ht.
    destruct (contains "news" um) eqn:E1;
      [apply (keyword_not_blank "n" "ews"); [reflexivity | exact E1]|].
    destruct (contains "open" um) eqn:E2;
      [apply (keyword_not_blank "o" "pen"); [reflexivity | exact E2]|].
    destruct (contains "close" um) eqn:E3;
      [apply (keyword_not_blank "c" "lose"); [reflexivity | exact E3]|].
    apply (keyword_not_blank "g" "roup study"); [reflexivity | exact Ht]. }
  assert (Hl : library_context_of e (message request) um [] = (Ok ""%string, [])).
  { unfold library_context_of. rewrite Hg. reflexivity. }
  split; [exact Hl|]. split.
  - rewrite (serve_library_calls e request Hb). fold um. rewrite Hl. reflexivity.
  - unfold serve. rewrite (chat_endpoint_run e request Hb). fold um. rewrite Hl.
    rewrite completion_post_sent. reflexivity.
Qed.

Lemma C9_gate_before_triggers_witness :
  library_calls (snd (serve Scenario.quiet (Scenario.request_of "Any news today?"))) = [].
Proof.
  apply (C9_gate_before_triggers Scenario.quiet (Scenario.request_of "Any news today?"));
    reflexivity.
Defined.

(** C3 (the code departs from the claim): when the search gives no items,
    the one fallback call for the first page is made, and when its answer
    is no dict (an empty list, or the [None] of a failed fetch) the request
    ends in the "technical difficulties" reply: no clarification text, no
    completion call. *)
Theorem C3_fallback_answer_not_a_dict :
  forall (e : env) (request : ChatRequest),
    let msg := message request in
    contains "book" (lower msg) = true ->
    truthy (first_items (fetched (library_service e "books" (Some (book_params msg)))))
    = false ->
    is_dict (fetched (library_service e "books" (Some first_page))) = false ->
    serve e request
    = ({| status := 200; content := reply DIFFICULTIES_REPLY |},
       [library_get e "books" (Some (book_params msg));
        library_get e "books" (Some first_page)]).
Proof.
  intros e request msg Hb H1 H2. unfold serve.
  rewrite chat_endpoint_run
    by (apply (keyword_not_blank "b" "ook"); [reflexivity | exact Hb]).
  fold msg. unfold library_context_of.
  rewrite (gate_opens (lower msg) "book") by (simpl; tauto || exact Hb).
  unfold sub_intent. cbv zeta. rewrite Hb. cbn [orb].
  pose proof (book_search_raises e msg H1 H2) as Hr.
  pose proof (book_search_falls_back_once e msg H1) as Hc.
  destruct (book_search e msg []) as [r tr]. cbn [fst snd] in Hr, Hc. subst r tr.
  reflexivity.
Qed.

Lemma C3_fallback_answer_not_a_dict_witness :
  serve (Scenario.no_books Scenario.quiet) (Scenario.request_of "any book on chess?")
  = ({| status := 200; content := reply DIFFICULTIES_REPLY |},
     [library_get Scenario.quiet "books" (Some [("q", JStr "any book on chess?")]);
      library_get Scenario.quiet "books" (Some first_page)]).
Proof.
  apply (C3_fallback_answer_not_a_dict (Scenario.no_books Scenario.quiet)
           (Scenario.request_of "any book on chess?")); reflexivity.
Defined.

(** ** The completion client *)

Lemma completion_failure_busy (r : http_reply) :
  completion_failure r -> after_completion r = reply BUSY_REPLY.
Proof.
  destruct r as [| |st body]; cbn [completion_failure after_completion]; try reflexivity.
  intros H.
  replace ((400 <=? st) && (st <? 600))%bool with true; [reflexivity|].
  symmetry. apply andb_true_iff. split; [apply Z.leb_le | apply Z.ltb_lt]; lia.
Qed.

Lemma not_in_without_completion (gs : list call) (url : string) (h : headers_t)
    (p : payload_t) (t : Z) :
  completion_calls gs = [] -> ~ In (POST url h p t) gs.
Proof.
  intros Hc Hin.
  assert (Hf : In (POST url h p t) (completion_calls gs))
    by (apply filter_In; split; [exact Hin | reflexivity]).
  rewrite Hc in Hf. exact Hf.
Qed.

(** C8, as amended: when the completion call gets no answer, times out or
    gets a 4xx or 5xx status, the endpoint answers 200 with the "busy"
    reply. *)
Theorem C8_completion_failure_busy_reply :
  forall (e : env) (request : ChatRequest) (url : string) (h : headers_t)
         (p : payload_t) (t : Z),
    In (POST url h p t) (snd (serve e request)) ->
    completion_failure (completion_service e p) ->
    fst (serve e request) = {| status := 200; content := reply BUSY_REPLY |}.
Proof.
  intros e request url h p t Hin Hf.
  destruct (is_empty (strip (message request))) eqn:Hb.
  - rewrite (blank_message_run e request Hb) in Hin. destruct Hin.
  - unfold serve in *. rewrite (chat_endpoint_run e request Hb) in *.
    destruct (library_context_of_calls e (message request) (lower (message request)))
      as [Hc _].
    destruct (library_context_of e (message request) (lower (message request)) [])
      as [[lc|ex] tr]; cbn [fst snd] in *.
    + apply in_app_or in Hin. destruct Hin as [Hin|[Hin|[]]].
      * exfalso. exact (not_in_without_completion tr url h p t Hc Hin).
      * unfold completion_post in Hin. injection Hin as _ _ Hp _. subst p.
        unfold respond. rewrite (completion_failure_busy _ Hf). reflexivity.
    + exfalso. exact (not_in_without_completion tr url h p t Hc Hin).
Qed.

Lemma C8_completion_failure_busy_reply_witness :
  fst (serve (Scenario.completion_timeout Scenario.quiet) (Scenario.request_of "Hello"))
  = {| status := 200; content := reply BUSY_REPLY |}.
Proof.
  apply (C8_completion_failure_busy_reply
           (Scenario.completion_timeout Scenario.quiet) (Scenario.request_of "Hello")
           COMPLETIONS_URL
           (completion_headers (Scenario.completion_timeout Scenario.quiet))
           (completion_payload (conversation (Scenario.request_of "Hello") "")) 10).
  - left. reflexivity.
  - exact I.
Defined.

(** C8, as stated, fails for a status outside 2xx that [raise_for_status]
    lets through: on 304 without a body the conversation was sent, and
    the reply is the "technical difficulties" one. *)
Lemma C8_not_modified_counterexample :
  let e := Scenario.not_modified Scenario.quiet in
  let request := Scenario.request_of "Hello" in
  snd (serve e request) = [completion_post e request ""]
  /\ completion_service e (completion_payload (conversation request "")) = Response 304 None
  /\ fst (serve e request) = {| status := 200; content := reply DIFFICULTIES_REPLY |}.
Proof. repeat split. Qed.

(** ** Times *)

Lemma digit_char (a : ascii) :
  is_digit a = true ->
  a = ascii_of_nat (48 + Datetime.digit_value a) /\ (Datetime.digit_value a < 10)%nat.
Proof.
  unfold is_digit, between, Datetime.digit_value, code. intros H.
  apply andb_true_iff in H. destruct H as [Hlo Hhi].
  apply Nat.leb_le in Hlo, Hhi. split; [|lia].
  replace (48 + (nat_of_ascii a - 48))%nat with (nat_of_ascii a) by lia.
  symmetry. apply ascii_nat_embedding.
Qed.

Lemma between_value (lo hi : nat) (a : ascii) :
  between lo hi a = true -> (lo <= code a <= hi)%nat.
Proof.
  unfold between. intros H. apply andb_true_iff in H. destruct H as [Hlo Hhi].
  apply Nat.leb_le in Hlo, Hhi. lia.
Qed.

Lemma two_digits_of (a b : ascii) :
  is_digit a = true -> is_digit b = true ->
  Datetime.two_digits (10 * Datetime.digit_value a + Datetime.digit_value b)
  = String a (String b "").
Proof.
  intros Ha Hb. destruct (digit_char a Ha) as [Ea La], (digit_char b Hb) as [Eb Lb].
  unfold Datetime.two_digits.
  replace ((10 * Datetime.digit_value a + Datetime.digit_value b) / 10)%nat
    with (Datetime.digit_value a)
    by (apply (Nat.div_unique _ 10 _ (Datetime.digit_value b)); lia).
  replace ((10 * Datetime.digit_value a + Datetime.digit_value b) mod 10)%nat
    with (Datetime.digit_value b)
    by (apply (Nat.mod_unique _ 10 (Datetime.digit_value a)); lia).
  rewrite <- Ea, <- Eb. reflexivity.
Qed.

Lemma numeral_two (a b : ascii) :
  is_digit a = true -> is_digit b = true ->
  numeral (10 * Datetime.digit_value a + Datetime.digit_value b) (String a (String b "")).
Proof. intros Ha Hb. left. apply two_digits_of; assumption. Qed.

Lemma numeral_one (a : ascii) :
  is_digit a = true -> numeral (Datetime.digit_value a) (String a "").
Proof.
  intros Ha. destruct (digit_char a Ha) as [Ea La]. unfold numeral, numerals.
  apply Nat.ltb_lt in La. rewrite La. right. left. rewrite <- Ea. reflexivity.
Qed.

Lemma between_digit (lo hi : nat) (a : ascii) :
  (48 <= lo)%nat -> (hi <= 57)%nat -> between lo hi a = true ->
  is_digit a = true /\ (lo - 48 <= Datetime.digit_value a <= hi - 48)%nat.
Proof.
  intros Hlo Hhi H. apply between_value in H. unfold is_digit, between, Datetime.digit_value.
  split; [|lia].
  apply andb_true_iff. split; apply Nat.leb_le; lia.
Qed.

(** What [%H] takes is a numeral of an hour below 24. *)
Lemma H_matches_sound (s : string) (h : nat) (r : string) :
  In (h, r) (Datetime.H_matches s) ->
  (h < 24)%nat /\ exists hs, numeral h hs /\ s = hs ++ r.
Proof.
  unfold Datetime.H_matches. intros Hin.
  apply in_app_or in Hin. destruct Hin as [Hin|Hin]; [|apply in_app_or in Hin; destruct Hin as [Hin|Hin]].
  - destruct s as [|a [|b r']]; try contradiction.
    destruct (Ascii.eqb a "2" && between 48 51 b)%bool eqn:E; [|contradiction].
    destruct Hin as [Hin|[]]. injection Hin as <- <-.
    apply andb_true_iff in E. destruct E as [Ea Eb].
    apply Ascii.eqb_eq in Ea. subst a.
    destruct (between_digit 48 51 b) as [Db Vb]; [lia | lia | exact Eb |].
    split; [lia|].
    exists (String "2" (String b "")). split; [|reflexivity].
    exact (numeral_two "2" b eq_refl Db).
  - destruct s as [|a [|b r']]; try contradiction.
    destruct (between 48 49 a && is_digit b)%bool eqn:E; [|contradiction].
    destruct Hin as [Hin|[]]. injection Hin as <- <-.
    apply andb_true_iff in E. destruct E as [Ea Db].
    destruct (between_digit 48 49 a) as [Da Va]; [lia | lia | exact Ea |].
    destruct (digit_char b Db) as [_ Lb].
    split; [lia|].
    exists (String a (String b "")). split; [|reflexivity].
    exact (numeral_two a b Da Db).
  - destruct s as [|a r']; [contradiction|].
    destruct (is_digit a) eqn:Da; [|contradiction].
    destruct Hin as [Hin|[]]. injection Hin as <- <-.
    destruct (digit_char a Da) as [_ La].
    split; [lia|].
    exists (String a ""). split; [|reflexivity].
    exact (numeral_one a Da).
Qed.

(** What [%M] takes is a numeral of a minute below 60. *)
Lemma M_matches_sound (s : string) (m : nat) (r : string) :
  In (m, r) (Datetime.M_matches s) ->
  (m < 60)%nat /\ exists ms, numeral m ms /\ s = ms ++ r.
Proof.
  unfold Datetime.M_matches. intros Hin.
  apply in_app_or in Hin. destruct Hin as [Hin|Hin].
  - destruct s as [|a [|b r']]; try contradiction.
    destruct (between 48 53 a && is_digit b)%bool eqn:E; [|contradiction].
    destruct Hin as [Hin|[]]. injection Hin as <- <-.
    apply andb_true_iff in E. destruct E as [Ea Db].
    destruct (between_digit 48 53 a) as [Da Va]; [lia | lia | exact Ea |].
    destruct (digit_char b Db) as [_ Lb].
    split; [lia|].
    exists (String a (String b "")). split; [|reflexivity].
    exact (numeral_two a b Da Db).
  - destruct s as [|a r']; [contradiction|].
    destruct (is_digit a) eqn:Da; [|contradiction].
    destruct Hin as [Hin|[]]. injection Hin as <- <-.
    destruct (digit_char a Da) as [_ La].
    split; [lia|].
    exists (String a ""). split; [|reflexivity].
    exact (numeral_one a Da).
Qed.

Lemma first_match_sound (hs : list (nat * string)) (h m : nat) (rest : string) :
  Datetime.first_match hs = Some (h, m, rest) ->
  exists r', In (h, String ":" r') hs /\ In (m, rest) (Datetime.M_matches r').
Proof.
  induction hs as [|[h0 r0] more IH]; cbn [Datetime.first_match]; [discriminate|].
  intros H.
  assert (Hmore : Datetime.first_match more = Some (h, m, rest) ->
                  exists r', In (h, String ":" r') ((h0, r0) :: more)
                             /\ In (m, rest) (Datetime.M_matches r')).
  { intros H'. destruct (IH H') as (r' & Hin & Hm). exists r'. split; [right|]; assumption. }
  destruct r0 as [|c r']; [exact (Hmore H)|].
  destruct (Ascii.eqb c ":") eqn:Ec; [|exact (Hmore H)].
  apply Ascii.eqb_eq in Ec. subst c.
  destruct (Datetime.M_matches r') as [|[m0 rest0] ms] eqn:Em; [exact (Hmore H)|].
  injection H as <- <- <-.
  exists r'. split; [left; reflexivity|]. rewrite Em. left. reflexivity.
Qed.

Lemma string_app_assoc (a b c : string) : (a ++ b) ++ c = a ++ b ++ c.
Proof. induction a as [|x a IH]; simpl; [reflexivity | rewrite IH; reflexivity]. Qed.

Lemma string_app_empty_r (a : string) : a ++ "" = a.
Proof. induction a as [|x a IH]; simpl; [reflexivity | rewrite IH; reflexivity]. Qed.

(** A text that [strptime] takes is a clock text. *)
Lemma strptime_sound (s : string) (h m : nat) :
  Datetime.strptime s = Ok (h, m) -> clock_text s.
Proof.
  unfold Datetime.strptime. intros H.
  destruct (Datetime.first_match (Datetime.H_matches s)) as [[[h' m'] rest]|] eqn:E;
    [|discriminate].
  destruct rest; [|discriminate]. injection H as -> ->.
  destruct (first_match_sound _ _ _ _ E) as (r' & Hh & Hm).
  destruct (H_matches_sound _ _ _ Hh) as (Lh & hs & Nh & Es).
  destruct (M_matches_sound _ _ _ Hm) as (Lm & ms & Nm & Er).
  exists h, m, hs, ms. repeat split; try assumption.
  rewrite Es, Er, string_app_empty_r. reflexivity.
Qed.

Lemma format_time_malformed (s : string) :
  ~ clock_text s -> format_time (JStr s) = JStr s.
Proof.
  intros H. unfold format_time.
  destruct (Datetime.strptime s) as [[h m]|ex] eqn:E; [|reflexivity].
  exfalso. exact (H (strptime_sound s h m E)).
Qed.

Lemma all_times_format :
  forallb (fun h => forallb (fun m => formats_as_twelve_hour h m) (seq 0 60)) (seq 0 24)
  = true.
Proof. vm_compute. reflexivity. Qed.

Lemma format_time_clock (h m : nat) (hs ms : string) :
  (h < 24)%nat -> (m < 60)%nat -> numeral h hs -> numeral m ms ->
  format_time (JStr (hs ++ ":" ++ ms)) = JStr (twelve_hour_text h m).
Proof.
  intros Lh Lm Nh Nm.
  pose proof all_times_format as H.
  rewrite forallb_forall in H. specialize (H h). rewrite in_seq in H.
  specialize (H ltac:(lia)).
  rewrite forallb_forall in H. specialize (H m). rewrite in_seq in H.
  specialize (H ltac:(lia)).
  unfold formats_as_twelve_hour in H.
  rewrite forallb_forall in H. specialize (H hs Nh).
  rewrite forallb_forall in H. specialize (H ms Nm).
  destruct (format_time (JStr (hs ++ ":" ++ ms))) as [|b|z|t|l|d]; try discriminate.
  apply String.eqb_eq in H. subst t. reflexivity.
Qed.

(** C6: [format_time] turns every 24-hour text (hour 0-23 and minute 0-59,
    each in one or two digits) into the 12-hour text with AM or PM, and
    returns any other ASCII text as it is; the Monday record is rendered as
    "Monday: 08:00 AM to 08:00 PM", and in the end-to-end scenario that
    line goes to the completion service in a system message placed before
    the user's. *)
Theorem C6_format_time :
  (forall (h m : nat) (hs ms : string),
      (h < 24)%nat -> (m < 60)%nat -> numeral h hs -> numeral m ms ->
      format_time (JStr (hs ++ ":" ++ ms)) = JStr (twelve_hour_text h m))
  /\ (forall s : string,
        is_ascii s = true -> ~ clock_text s -> format_time (JStr s) = JStr s)
  /\ hours_line Scenario.monday = Ok Scenario.MONDAY_LINE
  /\ (forall e : env,
        let request := Scenario.request_of "What time does the library open?" in
        snd (serve (Scenario.monday_hours e) request)
        = [library_get e "libraries/1/hours" None;
           completion_request e
             [system_message SCCS_SYSTEM_PROMPT_content;
              system_message ("Library Hours:" ++ LF ++ Scenario.MONDAY_LINE);
              user_message "What time does the library open?"]]).
Proof.
  split; [exact format_time_clock|].
  split; [intros s _; exact (format_time_malformed s)|].
  split; [reflexivity|].
  intros e request. unfold serve.
  rewrite chat_endpoint_run by reflexivity.
  assert (Hl : library_context_of (Scenario.monday_hours e) (message request)
                 (lower (message request)) []
               = (Ok ("Library Hours:" ++ LF ++ Scenario.MONDAY_LINE),
                  [library_get e "libraries/1/hours" None])) by reflexivity.
  rewrite Hl. reflexivity.
Qed.

Lemma C6_format_time_witness :
  format_time (JStr "20:00") = JStr "08:00 PM"
  /\ format_time (JStr "8 pm") = JStr "8 pm".
Proof.
  split.
  - apply (proj1 C6_format_time 20%nat 0%nat "20" "00"); [lia | lia | | ].
    + left. reflexivity.
    + left. reflexivity.
  - apply (proj1 (proj2 C6_format_time) "8 pm"); [reflexivity|].
    intros (h & m & hs & ms & _ & _ & Nh & _ & E).
    unfold numeral, numerals in Nh.
    destruct Nh as [Nh|Nh].
    + subst hs. unfold Datetime.two_digits in E. cbn [append] in E. discriminate E.
    + destruct (Nat.ltb h 10); [|contradiction].
      destruct Nh as [Nh|[]]. subst hs. cbn [append] in E. discriminate E.
Defined.

(** ** Module codes *)

Lemma upper_is_word (a : ascii) : is_upper a = true -> is_word a = true.
Proof. unfold is_word. intros ->. reflexivity. Qed.

Lemma digit_is_word (a : ascii) : is_digit a = true -> is_word a = true.
Proof. unfold is_word. intros ->. rewrite !orb_true_r. reflexivity. Qed.

(** What a match at the head of [s] says about [s]. *)
Lemma match_here_inv (prev : option ascii) (s m : string) :
  Re.match_here prev s = Some m ->
  exists a b c d e f g r,
    s = String a (String b (String c (String d (String e (String f (String g r))))))
    /\ m = String a (String b (String c (String d (String e (String f (String g ""))))))
    /\ Re.word_at prev = false
    /\ is_upper a = true /\ is_upper b = true /\ is_upper c = true
    /\ is_digit d = true /\ is_digit e = true /\ is_digit f = true /\ is_digit g = true
    /\ Re.word_at (Re.head r) = false.
Proof.
  unfold Re.match_here.
  destruct s as [|a [|b [|c [|d [|e [|f [|g r]]]]]]]; try discriminate.
  destruct (Re.word_boundary prev (Some a) && is_upper a && is_upper b && is_upper c
            && is_digit d && is_digit e && is_digit f && is_digit g
            && Re.word_boundary (Some g) (Re.head r))%bool eqn:E; [|discriminate].
  intros H. injection H as <-.
  repeat (apply andb_true_iff in E; destruct E as [E ?]).
  exists a, b, c, d, e, f, g, r.
  unfold Re.word_boundary in *. cbn [Re.word_at] in *.
  rewrite (upper_is_word a) in E by assumption.
  rewrite (digit_is_word g) in * by assumption.
  repeat split; try assumption.
  - destruct (Re.word_at prev); [discriminate | reflexivity].
  - destruct (Re.word_at (Re.head r)); [discriminate | reflexivity].
Qed.

Lemma match_here_intro (prev : option ascii) (a b c d e f g : ascii) (r : string) :
  Re.word_at prev = false ->
  is_upper a = true -> is_upper b = true -> is_upper c = true ->
  is_digit d = true -> is_digit e = true -> is_digit f = true -> is_digit g = true ->
  Re.word_at (Re.head r) = false ->
  Re.match_here prev
    (String a (String b (String c (String d (String e (String f (String g r)))))))
  = Some (String a (String b (String c (String d (String e (String f (String g ""))))))).
Proof.
  intros Hp Ha Hb Hc Hd He Hf Hg Hr. unfold Re.match_here, Re.word_boundary.
  cbn [Re.word_at]. rewrite Hp, Hr, (upper_is_word a Ha), (digit_is_word g Hg).
  rewrite Ha, Hb, Hc, Hd, He, Hf, Hg. reflexivity.
Qed.

Lemma search_from_cons (prev : option ascii) (c : ascii) (t : string) :
  Re.search_from prev (String c t)
  = match Re.match_here prev (String c t) with
    | Some m => Some m
    | None => Re.search_from (Some c) t
    end.
Proof. reflexivity. Qed.

Lemma has_code_token_cons (c : ascii) (s : string) :
  has_code_token s -> has_code_token (String c s).
Proof.
  intros (pre & a & b & c' & d & e & f & g & post & E & H).
  exists (String c pre), a, b, c', d, e, f, g, post. split; [|exact H].
  rewrite E. reflexivity.
Qed.

(** A match is a three-letter, four-digit token of the text. *)
Lemma search_from_token (s : string) :
  forall prev m, Re.search_from prev s = Some m -> has_code_token s.
Proof.
  induction s as [|c t IH]; intros prev m H.
  - discriminate H.
  - rewrite search_from_cons in H.
    destruct (Re.match_here prev (String c t)) as [m'|] eqn:E.
    + destruct (match_here_inv _ _ _ E)
        as (a & b & c' & d & e & f & g & r & Es & _ & _ & Ha & Hb & Hc & Hd & He & Hf & Hg & _).
      exists "", a, b, c', d, e, f, g, r. rewrite Es. repeat split; assumption.
    + apply has_code_token_cons. exact (IH _ _ H).
Qed.

Lemma last_char_cons (t : string) :
  forall a, exists z, last_char (String a t) = Some z.
Proof.
  induction t as [|b t IH]; intros a.
  - exists a. reflexivity.
  - destruct (IH b) as [z Hz]. exists z. rewrite <- Hz. reflexivity.
Qed.

Lemma before_cons (prev : option ascii) (c : ascii) (t : string) :
  before prev (String c t) = before (Some c) t.
Proof.
  unfold before. destruct t as [|a t]; [reflexivity|].
  change (last_char (String c (String a t))) with (last_char (String a t)).
  destruct (last_char_cons t a) as [z ->]. reflexivity.
Qed.

(** No match starts inside [pre] when [pre] alone has none there and ends
    with a character that is no word character. *)
Lemma match_here_app (prev : option ascii) (c : ascii) (t post : string) :
  Re.match_here prev (String c t) = None ->
  Re.word_at (before prev (String c t)) = false ->
  Re.match_here prev (String c t ++ INF1511 ++ post) = None.
Proof.
  intros Hn Hl.
  destruct (Re.match_here prev (String c t ++ INF1511 ++ post)) as [m|] eqn:E;
    [exfalso | reflexivity].
  destruct (match_here_inv _ _ _ E)
    as (a & b & c' & d & e & f & g & r & Es & _ & Hp & Ha & Hb & Hc & Hd & He & Hf & Hg & Hr).
  pose proof (upper_is_word a Ha). pose proof (upper_is_word b Hb).
  pose proof (upper_is_word c' Hc). pose proof (digit_is_word d Hd).
  pose proof (digit_is_word e He). pose proof (digit_is_word f Hf).
  pose proof (digit_is_word g Hg).
  unfold before in Hl.
  destruct t as [|c1 [|c2 [|c3 [|c4 [|c5 [|c6 [|c7 t]]]]]]];
    cbn [append last_char Re.word_at] in Es, Hl;
    try (injection Es as; subst; congruence).
  assert (Hm : Re.match_here prev
                 (String c (String c1 (String c2 (String c3 (String c4 (String c5
                    (String c6 (String c7 t))))))))
               <> None).
  { injection Es as -> -> -> -> -> -> -> Er.
    rewrite (match_here_intro prev a b c' d e f g (String c7 t)); try assumption;
      [discriminate|].
    rewrite <- Er in Hr. exact Hr. }
  exact (Hm Hn).
Qed.

Lemma search_from_app (pre post : string) :
  forall prev,
    Re.search_from prev pre = None ->
    Re.word_at (before prev pre) = false ->
    Re.word_at (Re.head post) = false ->
    Re.search_from prev (pre ++ INF1511 ++ post) = Some INF1511.
Proof.
  induction pre as [|c t IH]; intros prev Hn Hl Hr.
  - cbn [append]. unfold INF1511. cbn [append]. rewrite search_from_cons.
    rewrite match_here_intro; try reflexivity; assumption.
  - rewrite search_from_cons in Hn.
    destruct (Re.match_here prev (String c t)) eqn:Em; [discriminate|].
    change (String c t ++ INF1511 ++ post) with (String c (t ++ INF1511 ++ post)).
    rewrite search_from_cons.
    change (String c (t ++ INF1511 ++ post)) with (String c t ++ INF1511 ++ post).
    rewrite (match_here_app prev c t post Em Hl).
    apply IH; [exact Hn | rewrite <- (before_cons prev); exact Hl | exact Hr].
Qed.

Lemma upper_not_lowered (x : ascii) : is_upper x = true -> lower_char x <> x.
Proof.
  intros Hx Hl. unfold lower_char in Hl. rewrite Hx in Hl.
  unfold is_upper, between, code in Hx.
  apply andb_true_iff in Hx. destruct Hx as [H1 H2].
  apply Nat.leb_le in H1, H2.
  apply (f_equal nat_of_ascii) in Hl. unfold code in Hl.
  rewrite nat_ascii_embedding in Hl by lia. lia.
Qed.

(** A text in lower case has no module code. *)
Lemma no_token_in_lowercase (s : string) : lower s = s -> ~ has_code_token s.
Proof.
  intros Hl (pre & a & b & c & d & e & f & g & post & E & Ha & _).
  subst s. induction pre as [|y pre IH]; cbn [append lower] in Hl.
  - injection Hl as Hl _. exact (upper_not_lowered a Ha Hl).
  - injection Hl as _ Hl. exact (IH Hl).
Qed.

Lemma book_search_first_call (e : env) (msg : string) :
  hd_error (snd (book_search e msg [])) = Some (library_get e "books" (Some (book_params msg))).
Proof.
  rewrite book_search_run. cbv zeta. destruct (truthy (first_items _)); reflexivity.
Qed.

(** C7, as stated, fails: the token is not extracted when a letter or
    digit touches it, and an earlier token wins. *)
Lemma C7_touching_text_counterexample :
  Re.search_module_code ("my" ++ INF1511 ++ "x") = None
  /\ Re.search_module_code ("ABC1234 or " ++ INF1511 ++ "?") = Some "ABC1234"%string.
Proof. split; reflexivity. Qed.

(** C7, as amended: the search runs over the message as typed and returns
    the leftmost token of three capital letters and four digits that no
    letter, digit or underscore touches.  A message [pre ++ "INF1511" ++
    post], [pre] and [post] in ASCII, gives exactly "INF1511", sent as the
    separate "module" parameter next to "q", when the characters next to
    the token are no word characters and [pre] has no such token of its
    own; a message without any three-letter, four-digit token gives none
    and sends "q" alone. *)
Theorem C7_module_code_extraction :
  (forall pre post : string,
      is_ascii pre = true ->
      is_ascii post = true ->
      Re.search_module_code pre = None ->
      Re.word_at (last_char pre) = false ->
      Re.word_at (Re.head post) = false ->
      let msg := pre ++ INF1511 ++ post in
      Re.search_module_code msg = Some INF1511
      /\ book_params msg = [("q", JStr msg); ("module", JStr INF1511)])
  /\ (forall msg : string,
        ~ has_code_token msg ->
        Re.search_module_code msg = None /\ book_params msg = [("q", JStr msg)])
  /\ (forall (e : env) (msg : string),
        is_ascii msg = true ->
        hd_error (snd (book_search e msg []))
        = Some (library_get e "books" (Some (book_params msg)))).
Proof.
  split; [|split].
  - intros pre post _ _ Hn Hl Hr msg.
    assert (Hs : Re.search_module_code msg = Some INF1511).
    { apply search_from_app; try assumption.
      unfold before. destruct (last_char pre); [exact Hl | reflexivity]. }
    split; [exact Hs|]. unfold book_params. rewrite Hs. reflexivity.
  - intros msg Hno.
    assert (Hs : Re.search_module_code msg = None).
    { destruct (Re.search_module_code msg) as [m|] eqn:E; [|reflexivity].
      exfalso. exact (Hno (search_from_token msg None m E)). }
    split; [exact Hs|]. unfold book_params. rewrite Hs. reflexivity.
  - intros e msg _. exact (book_search_first_call e msg).
Qed.

Lemma C7_module_code_extraction_witness :
  Re.search_module_code "Which textbook do I need for INF1511, please?" = Some INF1511
  /\ Re.search_module_code "which textbook do i need?" = None.
Proof.
  split.
  - apply (proj1 C7_module_code_extraction "Which textbook do I need for " ", please?");
      reflexivity.
  - apply (proj1 (proj2 C7_module_code_extraction) "which textbook do i need?").
    apply no_token_in_lowercase. reflexivity.
Defined.

(** ** Seats *)

Lemma rfilter_ok {A : Type} (keep : A -> result bool) (p : A -> bool) (xs : list A) :
  Forall (fun x => keep x = Ok (p x)) xs -> rfilter keep xs = Ok (filter p xs).
Proof.
  induction 1 as [|x xs Hx _ IH]; [reflexivity|].
  cbn [rfilter filter]. rewrite Hx, IH. cbn [rbind]. destruct (p x); reflexivity.
Qed.

Lemma rmap_ok {A B : Type} (f : A -> result B) (g : A -> B) (xs : list A) :
  Forall (fun x => f x = Ok (g x)) xs -> rmap f xs = Ok (map g xs).
Proof.
  induction 1 as [|x xs Hx _ IH]; [reflexivity|].
  cbn [rmap map]. rewrite Hx, IH. reflexivity.
Qed.

Lemma item_field (k : string) (record : json) :
  has_field k record -> item record k = Ok (field k record).
Proof. intros (d & v & -> & Hv). cbn [item field]. rewrite Hv. reflexivity. Qed.

Lemma seat_is_free_flag (s : json) :
  has_field "is_occupied" s -> seat_is_free s = Ok (negb (seat_occupied s)).
Proof.
  intros Ho. unfold seat_is_free, seat_occupied.
  rewrite (item_field _ _ Ho). reflexivity.
Qed.

Lemma seat_line_shown (s : json) :
  has_field "identifier" s -> has_field "is_computer" s -> seat_line s = Ok (seat_text s).
Proof.
  intros Hi Hc. unfold seat_line, seat_text.
  rewrite (item_field _ _ Hi), (item_field _ _ Hc). reflexivity.
Qed.

Lemma in_firstn {A : Type} (n : nat) (l : list A) (x : A) :
  In x (firstn n l) -> In x l.
Proof.
  intros H. rewrite <- (firstn_skipn n l). apply in_or_app. left. exact H.
Qed.

Lemma shown_seats_free (seats : list json) :
  (length (shown_seats seats) <= 5)%nat
  /\ Forall (fun s => In s seats /\ seat_occupied s = false) (shown_seats seats).
Proof.
  unfold shown_seats. split.
  - apply firstn_le_length.
  - apply Forall_forall. intros s Hs.
    apply in_firstn, filter_In in Hs. destruct Hs as [Hin Hf].
    split; [exact Hin|]. destruct (seat_occupied s); [discriminate | reflexivity].
Qed.

(** The flag is read of every seat, identifier and kind of the shown ones
    only. *)
Lemma seats_block_shown (seats : list json) :
  Forall (has_field "is_occupied") seats ->
  Forall (fun s => has_field "identifier" s /\ has_field "is_computer" s)
         (shown_seats seats) ->
  seats_block (JList seats)
  = Ok ("Available Seats:" ++ LF ++ join LF (map seat_text (shown_seats seats))).
Proof.
  intros Hall Hshown. unfold seats_block. cbn [iter rbind].
  rewrite (rfilter_ok seat_is_free (fun s => negb (seat_occupied s))).
  - cbn [rbind]. fold (shown_seats seats). rewrite (rmap_ok seat_line seat_text).
    + reflexivity.
    + apply Forall_forall. intros s Hs.
      rewrite Forall_forall in Hshown. destruct (Hshown s Hs) as [Hi Hc].
      exact (seat_line_shown s Hi Hc).
  - apply Forall_forall. intros s Hs. apply seat_is_free_flag.
    rewrite Forall_forall in Hall. exact (Hall s Hs).
Qed.

(** C10: for a seat question in ASCII answered by the data service with a
    non-empty list of seats, each with its [is_occupied], the enrichment is
    the header "Available Seats:" and one line each for the first five
    seats that are not occupied, labelled "Computer" or "Study" by
    [is_computer]; an occupied seat has no line.  The text goes to the
    completion service as a system message before the user's. *)
Theorem C10_seat_enrichment :
  forall (e : env) (request : ChatRequest) (seats : list json),
    let um := lower (message request) in
    let endpoint :=
      ("libraries/" ++ of_Z (get_campus_id (message request)) ++ "/seats/availability")%string in
    is_ascii (message request) = true ->
    contains "seat" um = true ->
    contains "book" um = false ->
    contains "computer" um = false ->
    fetched (library_service e endpoint None) = JList seats ->
    seats <> [] ->
    Forall (has_field "is_occupied") seats ->
    Forall (fun s => has_field "identifier" s /\ has_field "is_computer" s)
           (shown_seats seats) ->
    let text :=
      ("Available Seats:" ++ LF ++ join LF (map seat_text (shown_seats seats)))%string in
    library_context_of e (message request) um [] = (Ok text, [library_get e endpoint None])
    /\ snd (serve e request)
       = [library_get e endpoint None;
          completion_request e
            ([system_message SCCS_SYSTEM_PROMPT_content]
             ++ last3 (prior_context request)
             ++ [system_message text]
             ++ [user_message (message request)])]
    /\ (length (shown_seats seats) <= 5)%nat
    /\ Forall (fun s => In s seats /\ seat_occupied s = false) (shown_seats seats).
Proof.
  intros e request seats um endpoint Hascii Hs Hb Hc Hreply Hne Hall Hshown text.
  assert (Hl : library_context_of e (message request) um []
               = (Ok text, [library_get e endpoint None]));
    [|split; [exact Hl|]; split; [|apply shown_seats_free];
      unfold serve;
      rewrite chat_endpoint_run
        by (apply (keyword_not_blank "s" "eat"); [reflexivity | exact Hs]);
      fold um; rewrite Hl; rewrite completion_post_sent; reflexivity].
  unfold library_context_of. fold um.
  rewrite (gate_opens um "seat") by (simpl; tauto || exact Hs).
  unfold sub_intent. cbv zeta. fold um.
  rewrite Hb, (no_book_no_textbook um Hb), Hc, Hs. cbn [orb].
  fold endpoint. rewrite fetch_and_format_run, Hreply.
  destruct seats as [|s0 seats']; [contradiction|]. cbn [truthy].
  rewrite (seats_block_shown _ Hall Hshown). reflexivity.
Qed.

Lemma C10_seat_enrichment_witness :
  fst (library_context_of (Scenario.with_three_seats Scenario.quiet)
         "Is any seat free?" (lower "Is any seat free?") [])
  = Ok ("Available Seats:" ++ LF ++ "S1 (Study)" ++ LF ++ "PC3 (Computer)").
Proof.
  assert (Hall : Forall (has_field "is_occupied") Scenario.three_seats).
  { repeat constructor; eexists _, _; split; reflexivity. }
  assert (Hshown : Forall (fun s => has_field "identifier" s /\ has_field "is_computer" s)
                     (shown_seats Scenario.three_seats)).
  { repeat constructor; eexists _, _; split; reflexivity. }
  exact (f_equal fst
           (proj1 (C10_seat_enrichment (Scenario.with_three_seats Scenario.quiet)
                     (Scenario.request_of "Is any seat free?") Scenario.three_seats
                     eq_refl eq_refl eq_refl eq_refl eq_refl ltac:(discriminate)
                     Hall Hshown))).
Defined.

(** ** Failures of the data service *)

Lemma library_failure_fetched (r : http_reply) : library_failure r -> fetched r = JNull.
Proof.
  unfold library_failure, fetched. destruct r as [| |st [j|]]; try reflexivity.
  intros [H|H]; [|discriminate].
  replace ((400 <=? st) && (st <? 600))%bool with true; [reflexivity|].
  symmetry. apply andb_true_iff. split; [apply Z.leb_le | apply Z.ltb_lt]; lia.
Qed.

(** Behind the book search every branch goes on without a text when the
    call it makes fails. *)
Lemma sub_intent_failed_call (e : env) (msg um : string) :
  contains "book" um = false ->
  (forall endpoint params,
      In (library_get e endpoint params) (snd (sub_intent e msg um [])) ->
      library_failure (library_service e endpoint params)) ->
  exists calls,
    sub_intent e msg um [] = (Ok ""%string, calls) /\ (length calls <= 1)%nat.
Proof.
  intros Hb. unfold sub_intent. cbv zeta.
  rewrite Hb, (no_book_no_textbook um Hb). cbn [orb].
  repeat match goal with
         | |- context [if ?b then _ else _] => destruct b
         end;
    intros Hf;
    try (rewrite fetch_and_format_run in Hf |- *; cbn [snd app] in Hf;
         pose proof (Hf _ _ (or_introl eq_refl)) as Hfail;
         rewrite (library_failure_fetched _ Hfail);
         eexists; split; [reflexivity | cbn; lia]).
  exists []. split; [reflexivity | cbn [length]; lia].
Qed.

(** C2, as stated, fails twice: a status outside 2xx that
    [raise_for_status] lets through (300, with a JSON body) is taken as
    data, and with the data service not answering a book question ends in
    the "technical difficulties" reply, without a completion call. *)
Lemma C2_failure_counterexample :
  fst (library_context_of (Scenario.multiple_choices Scenario.quiet)
         "What time does the library open?" (lower "What time does the library open?") [])
  = Ok ("Library Hours:" ++ LF ++ Scenario.MONDAY_LINE)
  /\ serve (Scenario.library_down Scenario.quiet) (Scenario.request_of "Do you have this book?")
     = ({| status := 200; content := reply DIFFICULTIES_REPLY |},
        [library_get Scenario.quiet "books" (Some [("q", JStr "Do you have this book?")]);
         library_get Scenario.quiet "books" (Some first_page)]).
Proof. split; reflexivity. Qed.

(** C2, as amended: on no answer, a timeout, a 4xx or 5xx status or a body
    that is not JSON, the data client returns [None] and does not raise;
    a request in ASCII that is no book search and whose data call fails
    then goes on without enrichment: at most one data call, then the
    completion call with the system prompt, the last three context
    messages and the user's message, and the reply that the completion
    step gives.  In the book search a failed search call is followed by the
    fallback call. *)
Theorem C2_library_failure_is_no_data :
  (forall (e : env) (endpoint : string) (params : option params_t) (tr : list call),
      library_failure (library_service e endpoint params) ->
      fetch_library_data e endpoint params tr
      = (Ok JNull, (tr ++ [library_get e endpoint params])%list))
  /\ (forall (e : env) (request : ChatRequest),
        let um := lower (message request) in
        let sent :=
          ([system_message SCCS_SYSTEM_PROMPT_content]
           ++ last3 (prior_context request)
           ++ [user_message (message request)])%list in
        is_ascii (message request) = true ->
        is_empty (strip (message request)) = false ->
        contains "book" um = false ->
        (forall endpoint params,
            In (library_get e endpoint params)
               (snd (library_context_of e (message request) um [])) ->
            library_failure (library_service e endpoint params)) ->
        exists calls,
          library_context_of e (message request) um [] = (Ok ""%string, calls)
          /\ (length calls <= 1)%nat
          /\ serve e request
             = ({| status := 200;
                   content := after_completion (completion_service e (sent_payload sent)) |},
                (calls ++ [completion_request e sent])%list))
  /\ (forall (e : env) (msg : string),
        is_ascii msg = true ->
        library_failure (library_service e "books" (Some (book_params msg))) ->
        snd (book_search e msg [])
        = [library_get e "books" (Some (book_params msg));
           library_get e "books" (Some first_page)]).
Proof.
  split; [|split].
  - intros e endpoint params tr H.
    rewrite fetch_library_data_run, (library_failure_fetched _ H). reflexivity.
  - intros e request um sent Hascii Hn Hb Hf.
    assert (Hl : exists calls,
               library_context_of e (message request) um [] = (Ok ""%string, calls)
               /\ (length calls <= 1)%nat).
    { unfold library_context_of in Hf |- *. destruct (existsb _ _).
      - apply sub_intent_failed_call; assumption.
      - exists []. split; [reflexivity | cbn [length]; lia]. }
    destruct Hl as (calls & Hl & Hlen). exists calls.
    split; [exact Hl|]. split; [exact Hlen|].
    unfold serve. rewrite (chat_endpoint_run e request Hn). fold um. rewrite Hl.
    rewrite completion_post_sent. unfold respond. rewrite conversation_spec. reflexivity.
  - intros e msg _ H. apply book_search_falls_back_once.
    rewrite (library_failure_fetched _ H). reflexivity.
Qed.

Lemma C2_library_failure_is_no_data_witness :
  snd (serve (Scenario.library_down Scenario.quiet) (Scenario.request_of "Is any seat free?"))
  = [library_get Scenario.quiet "libraries/1/seats/availability" None;
     completion_request Scenario.quiet
       [system_message SCCS_SYSTEM_PROMPT_content; user_message "Is any seat free?"]].
Proof.
  destruct (proj1 (proj2 C2_library_failure_is_no_data)
              (Scenario.library_down Scenario.quiet)
              (Scenario.request_of "Is any seat free?")
              eq_refl eq_refl eq_refl (fun _ _ _ => I))
    as (calls & Hl & _ & Hs).
  rewrite Hs. injection Hl as <-. reflexivity.
Defined.

(** * Further properties of [chatbot.py] *)

(** ** The campus *)

Lemma lower_app (a b : string) : lower (a ++ b) = lower a ++ lower b.
Proof. induction a as [|c a IH]; cbn [append lower]; [reflexivity | rewrite IH; reflexivity]. Qed.

Lemma prefix_app_self (k r : string) : prefix k (k ++ r) = true.
Proof.
  induction k as [|c k IH]; cbn [append prefix]; [destruct r; reflexivity|].
  destruct (ascii_dec c c); [exact IH | congruence].
Qed.

(** A text holds what stands in its middle. *)
Lemma contains_middle (k pre post : string) : contains k (pre ++ k ++ post) = true.
Proof.
  induction pre as [|c pre IH]; cbn [append].
  - apply prefix_contains, prefix_app_self.
  - apply contains_tail, IH.
Qed.

(** A keyword typed in any letter case is found in the lower-case
    message. *)
Lemma contains_any_case (k pre w post : string) :
  lower w = k -> contains k (lower (pre ++ w ++ post)) = true.
Proof. intros <-. rewrite !lower_app. apply contains_middle. Qed.

(** X1: a message that names Siyabuswa, in whatever letter case and
    wherever in the text, is for campus 2; a message whose lower-case form
    does not hold "siyabuswa" is for campus 1. *)
Theorem X1_campus_of_message :
  (forall pre w post : string,
      lower w = "siyabuswa"%string -> get_campus_id (pre ++ w ++ post) = 2)
  /\ (forall msg : string,
        contains "siyabuswa" (lower msg) = false -> get_campus_id msg = 1).
Proof.
  split.
  - intros pre w post H. unfold get_campus_id.
    rewrite (contains_any_case "siyabuswa" pre w post H). reflexivity.
  - intros msg H. unfold get_campus_id. rewrite H. reflexivity.
Qed.

Lemma X1_campus_of_message_witness :
  get_campus_id "Any free seats at the SiyaBuswa campus?" = 2
  /\ get_campus_id "Any free seats?" = 1.
Proof.
  split.
  - apply (proj1 X1_campus_of_message "Any free seats at the " "SiyaBuswa" " campus?").
    reflexivity.
  - apply (proj2 X1_campus_of_message "Any free seats?"). reflexivity.
Defined.

(** ** What every request gets *)

(** X2: every request, whatever the two services do, is answered with
    status 200 and a body of one "reply" string. *)
Theorem X2_always_a_reply :
  forall (e : env) (request : ChatRequest),
    exists text : string,
      fst (serve e request) = {| status := 200; content := reply text |}.
Proof.
  intros e request.
  destruct (is_empty (strip (message request))) eqn:Hb.
  - rewrite (blank_message_run e request Hb). eexists. reflexivity.
  - unfold serve. rewrite (chat_endpoint_run e request Hb).
    destruct (library_context_of e (message request) (lower (message request)) [])
      as [[lc|ex] tr]; cbn [fst respond].
    + unfold after_completion.
      destruct (completion_service e (completion_payload (conversation request lc)))
        as [| |st [j|]]; try (eexists; reflexivity);
        destruct ((400 <=? st) && (st <? 600))%bool; try (eexists; reflexivity).
      destruct (ai_message_of j); eexists; reflexivity.
    + eexists. reflexivity.
Qed.

(** ** The calls of a request *)

Lemma sub_intent_budget (e : env) (msg um : string) :
  exists r gs,
    sub_intent e msg um [] = (r, gs)
    /\ library_calls gs = gs
    /\ (length gs <= 2)%nat
    /\ (length gs = 2%nat -> contains "book" um = true).
Proof.
  unfold sub_intent. cbv zeta.
  destruct (contains "book" um) eqn:Hb; cbn [orb].
  - rewrite book_search_run. cbv zeta.
    destruct (truthy (first_items _)); eexists _, _;
      (split; [reflexivity|]); cbn; repeat split; lia.
  - rewrite (no_book_no_textbook um Hb).
    repeat match goal with
           | |- context [if ?b then _ else _] => destruct b
           end;
      rewrite ?fetch_and_format_run; eexists _, _;
      (split; [reflexivity|]); cbn; repeat split; lia.
Qed.

Lemma library_context_of_budget (e : env) (msg um : string) :
  exists r gs,
    library_context_of e msg um [] = (r, gs)
    /\ library_calls gs = gs
    /\ (length gs <= 2)%nat
    /\ (length gs = 2%nat -> contains "book" um = true).
Proof.
  unfold library_context_of. destruct (existsb _ _).
  - apply sub_intent_budget.
  - exists (Ok ""%string), []. cbn. repeat split; lia.
Qed.

(** X3: a request in ASCII makes at most two calls to the data service,
    two only for a book question, and at most one call to the completion
    service, which comes after every data call. *)
Theorem X3_call_budget :
  forall (e : env) (request : ChatRequest),
    is_ascii (message request) = true ->
    exists gets posts : list call,
      snd (serve e request) = (gets ++ posts)%list
      /\ library_calls gets = gets
      /\ completion_calls posts = posts
      /\ (length gets <= 2)%nat
      /\ (length posts <= 1)%nat
      /\ (length gets = 2%nat -> contains "book" (lower (message request)) = true).
Proof.
  intros e request Hascii.
  destruct (is_empty (strip (message request))) eqn:Hb.
  - rewrite (blank_message_run e request Hb). exists [], []. cbn.
    repeat split; lia.
  - unfold serve. rewrite (chat_endpoint_run e request Hb).
    destruct (library_context_of_budget e (message request) (lower (message request)))
      as (r & gs & Hrun & Hl & Hlen & Hbook).
    rewrite Hrun. destruct r as [lc|ex]; cbn [snd].
    + exists gs, [completion_post e request lc]. cbn. repeat split; assumption || lia.
    + exists gs, []. rewrite app_nil_r. cbn. repeat split; assumption || lia.
Qed.

Lemma X3_call_budget_witness :
  exists gets posts : list call,
    snd (serve Scenario.quiet (Scenario.request_of "Is any seat free?"))
    = (gets ++ posts)%list
    /\ (length gets <= 2)%nat /\ (length posts <= 1)%nat.
Proof.
  destruct (X3_call_budget Scenario.quiet (Scenario.request_of "Is any seat free?")
              eq_refl) as (gets & posts & H1 & _ & _ & H2 & H3 & _).
  exists gets, posts. repeat split; assumption.
Defined.

(** ** When the data service is asked *)

Lemma sub_intent_calls_iff (e : env) (msg um : string) :
  snd (sub_intent e msg um []) <> [] <-> triggered um = true.
Proof.
  unfold sub_intent, triggered. cbv zeta.
  repeat match goal with
         | |- context [if ?b then _ else _] => destruct b
         end;
    cbn [orb];
    rewrite ?fetch_and_format_run, ?book_search_run; cbv zeta;
    try (destruct (truthy (first_items _)));
    cbn [snd app ret];
    (split; intros H; [reflexivity || (exfalso; apply H; reflexivity) | discriminate]).
Qed.

Lemma library_context_of_calls_iff (e : env) (msg um : string) :
  snd (library_context_of e msg um []) <> []
  <-> (existsb (fun keyword => contains keyword um) GATE_KEYWORDS && triggered um)%bool = true.
Proof.
  unfold library_context_of. destruct (existsb _ _); cbn [andb].
  - apply sub_intent_calls_iff.
  - cbn [ret snd]. split; [intros H; exfalso; apply H; reflexivity | discriminate].
Qed.

(** The gate and the chain together, in their nine and thirteen keywords,
    come to [consulted]: "textbook" holds "book" and "study room" holds
    "room". *)
Lemma gate_and_chain (um : string) :
  (existsb (fun keyword => contains keyword um) GATE_KEYWORDS && triggered um)%bool
  = consulted um.
Proof.
  pose proof (contains_app_r "text" "book" um) as Htb.
  pose proof (contains_app_r "study " "room" um) as Hsr.
  cbn [append] in Htb, Hsr.
  unfold triggered, consulted. cbn [existsb GATE_KEYWORDS]. cbv zeta.
  destruct (contains "textbook" um); [rewrite (Htb eq_refl)|];
    destruct (contains "study room" um); rewrite ?(Hsr eq_refl);
    cbn [orb andb]; btauto.
Qed.

Lemma blank_not_consulted (msg : string) :
  all_space msg = true -> consulted (lower msg) = false.
Proof.
  intros H. unfold consulted. cbv zeta.
  rewrite (all_space_no_keyword "b" "ook" msg eq_refl H),
    (all_space_no_keyword "s" "eat" msg eq_refl H),
    (all_space_no_keyword "c" "omputer" msg eq_refl H),
    (all_space_no_keyword "r" "oom" msg eq_refl H),
    (all_space_no_keyword "a" "nnouncement" msg eq_refl H),
    (all_space_no_keyword "h" "our" msg eq_refl H),
    (all_space_no_keyword "v" "enue" msg eq_refl H),
    (all_space_no_keyword "l" "ibrary" msg eq_refl H).
  reflexivity.
Qed.

(** X4: for a message in ASCII the data service is asked exactly when its
    lower-case form holds "book", "seat", "computer", "room",
    "announcement", "hour" or "venue", or holds "library" together with
    "news", "open", "close" or "group study"; in particular a message with
    "library" alone passes the gate and still makes no data call. *)
Theorem X4_when_the_data_service_is_asked :
  forall (e : env) (request : ChatRequest),
    is_ascii (message request) = true ->
    (library_calls (snd (serve e request)) <> []
     <-> consulted (lower (message request)) = true).
Proof.
  intros e request Hascii.
  destruct (is_empty (strip (message request))) eqn:Hb.
  - rewrite (blank_message_run e request Hb).
    rewrite (blank_not_consulted _ (strip_empty_all_space _ Hb)). cbn.
    split; [intros H; exfalso; apply H; reflexivity | discriminate].
  - rewrite (serve_library_calls e request Hb), <- gate_and_chain.
    apply library_context_of_calls_iff.
Qed.

Lemma X4_when_the_data_service_is_asked_witness :
  library_calls (snd (serve Scenario.quiet (Scenario.request_of "Any library news?"))) <> []
  /\ library_calls (snd (serve Scenario.quiet (Scenario.request_of "Where is the library?")))
     = [].
Proof.
  split.
  - apply (proj2 (X4_when_the_data_service_is_asked Scenario.quiet
                    (Scenario.request_of "Any library news?") eq_refl)).
    reflexivity.
  - destruct (library_calls
                (snd (serve Scenario.quiet (Scenario.request_of "Where is the library?"))))
      as [|c l] eqn:E; [reflexivity|].
    pose proof (proj1 (X4_when_the_data_service_is_asked Scenario.quiet
                         (Scenario.request_of "Where is the library?") eq_refl)) as H.
    rewrite E in H. specialize (H ltac:(discriminate)). discriminate H.
Defined.

(** X5: the second "computer" branch of the chain is never taken: the
    chain does for every message what it does with that branch removed. *)
Theorem X5_second_computer_branch_is_dead :
  forall (e : env) (msg um : string), sub_intent e msg um = sub_intent_live e msg um.
Proof.
  intros e msg um. unfold sub_intent, sub_intent_live. cbv zeta.
  destruct (contains "computer" um);
    repeat match goal with
           | |- context [if ?b then _ else _] => destruct b
           end;
    reflexivity.
Qed.

(** ** The reply text *)

Section Replace.

Variables (o n : ascii) (old' new' : string).
Let old : string := String o old'.
Let new : string := String n new'.

Lemma replace_from_app (p rest : string) :
  replace_from old new (String.length p) (p ++ rest) = replace_from old new O rest.
Proof. induction p as [|c p IH]; [reflexivity | exact IH]. Qed.

Lemma prefix_split (p : string) :
  forall s, prefix p s = true -> exists rest, s = p ++ rest.
Proof.
  induction p as [|a p IH]; intros s H.
  - exists s. reflexivity.
  - destruct s as [|c t]; [discriminate|]. cbn [prefix] in H.
    destruct (ascii_dec a c) as [->|]; [|discriminate].
    destruct (IH t H) as [rest ->]. exists rest. reflexivity.
Qed.

(** Where [old] stands at the head, [new] takes its place and the
    replacing goes on behind it. *)
Lemma replace_match (s : string) :
  prefix old s = true ->
  exists rest, s = old ++ rest /\ replace old new s = new ++ replace old new rest.
Proof.
  intros H. destruct (prefix_split old s H) as [rest ->]. exists rest.
  split; [reflexivity|]. unfold replace.
  change (old ++ rest) with (String o (old' ++ rest)) in *.
  cbn [replace_from]. rewrite H.
  change (String.length old - 1)%nat with (String.length old' - 0)%nat.
  rewrite Nat.sub_0_r, replace_from_app. reflexivity.
Qed.

Lemma replace_no_match (c : ascii) (t : string) :
  prefix old (String c t) = false ->
  replace old new (String c t) = String c (replace old new t).
Proof. intros H. unfold replace. cbn [replace_from]. rewrite H. reflexivity. Qed.

Hypothesis new_not_in_old : has_char n old = false.
Hypothesis old_not_in_new : has_char o new = false.

(** What the result begins with, away from [new], the text began with. *)
Lemma prefix_replace_back (p : string) :
  forall s, has_char n p = false ->
            prefix p (replace old new s) = true -> prefix p s = true.
Proof.
  induction p as [|a p IH]; intros s Hp H.
  - destruct s; reflexivity.
  - cbn [has_char] in Hp. apply orb_false_iff in Hp. destruct Hp as [Ha Hp].
    destruct s as [|c t]; [discriminate H|].
    destruct (prefix old (String c t)) eqn:E.
    + destruct (replace_match _ E) as (rest & _ & Hr). rewrite Hr in H.
      unfold new in H. cbn [append prefix] in H.
      destruct (ascii_dec a n) as [->|]; [|discriminate].
      rewrite Ascii.eqb_refl in Ha. discriminate.
    + rewrite (replace_no_match c t E) in H. cbn [prefix] in H |- *.
      destruct (ascii_dec a c); [|discriminate]. exact (IH t Hp H).
Qed.

Lemma contains_behind (k : string) :
  has_char o k = false -> forall x, contains old (k ++ x) = contains old x.
Proof.
  induction k as [|c k IH]; intros Hk x; [reflexivity|].
  cbn [has_char] in Hk. apply orb_false_iff in Hk. destruct Hk as [Hc Hk].
  cbn [append contains]. rewrite (IH Hk x).
  unfold old. cbn [prefix].
  destruct (ascii_dec o c) as [->|]; [|reflexivity].
  rewrite Ascii.eqb_refl in Hc. discriminate.
Qed.

Lemma string_length_app (a b : string) :
  String.length (a ++ b) = (String.length a + String.length b)%nat.
Proof. induction a as [|c a IH]; cbn [append String.length]; [reflexivity | rewrite IH; reflexivity]. Qed.

Lemma replace_leaves_none_bounded (m : nat) :
  forall s, (String.length s <= m)%nat -> contains old (replace old new s) = false.
Proof.
  induction m as [|m IH]; intros s Hlen.
  - destruct s; [reflexivity | cbn [String.length] in Hlen; lia].
  - destruct s as [|c t]; [reflexivity|].
    destruct (prefix old (String c t)) eqn:E.
    + destruct (replace_match _ E) as (rest & Hs & Hr). rewrite Hr.
      rewrite (contains_behind new old_not_in_new). apply IH.
      rewrite Hs, string_length_app in Hlen. unfold old in Hlen.
      cbn [String.length] in Hlen. lia.
    + rewrite (replace_no_match c t E). cbn [contains].
      rewrite (IH t) by (cbn [String.length] in Hlen; lia).
      rewrite orb_false_r.
      destruct (prefix old (String c (replace old new t))) eqn:P; [|reflexivity].
      rewrite <- (replace_no_match c t E) in P.
      rewrite (prefix_replace_back old _ new_not_in_old P) in E. discriminate.
Qed.

(** No occurrence of [old] is left, and none arises. *)
Lemma replace_leaves_none (s : string) : contains old (replace old new s) = false.
Proof. exact (replace_leaves_none_bounded (String.length s) s (le_n _)). Qed.

End Replace.

Lemma prefix_app_r (k r w : string) : prefix k r = true -> prefix k (r ++ w) = true.
Proof.
  revert r. induction k as [|a k IH]; intros r H; [destruct (r ++ w); reflexivity|].
  destruct r as [|c r]; [discriminate|]. cbn [append prefix] in *.
  destruct (ascii_dec a c); [exact (IH r H) | discriminate].
Qed.

Lemma contains_app_l (k r w : string) : contains k r = true -> contains k (r ++ w) = true.
Proof.
  induction r as [|c r IH]; intros H.
  - cbn [contains] in H. rewrite orb_false_r in H.
    apply prefix_contains. exact (prefix_app_r k "" w H).
  - cbn [contains] in H. apply orb_true_iff in H. destruct H as [H|H].
    + apply prefix_contains. exact (prefix_app_r k (String c r) w H).
    + cbn [append]. apply contains_tail, IH, H.
Qed.

Lemma rstrip_split (s : string) : exists w, s = rstrip s ++ w.
Proof.
  induction s as [|c t [w IH]]; [exists ""%string; reflexivity|].
  cbn [rstrip]. destruct (rstrip t) as [|d r] eqn:E.
  - destruct (is_space c); [exists (String c t) | exists t]; reflexivity.
  - exists w. cbn [append] in *. rewrite <- IH. reflexivity.
Qed.

Lemma contains_lstrip (k s : string) : contains k (lstrip s) = true -> contains k s = true.
Proof.
  induction s as [|c t IH]; [trivial|]. cbn [lstrip].
  destruct (is_space c); [|trivial]. intros H. apply contains_tail, IH, H.
Qed.

(** What the stripped text holds, the text held. *)
Lemma contains_strip (k s : string) : contains k (strip s) = true -> contains k s = true.
Proof.
  unfold strip. intros H. apply contains_lstrip.
  destruct (rstrip_split (lstrip s)) as [w Hw]. rewrite Hw.
  apply contains_app_l, H.
Qed.

Lemma lstrip_no_leading_space (s : string) : no_leading_space (lstrip s).
Proof.
  induction s as [|c t IH]; [exact I|]. cbn [lstrip].
  destruct (is_space c) eqn:E; [exact IH | exact E].
Qed.

Lemma rstrip_no_leading_space (s : string) :
  no_leading_space s -> no_leading_space (rstrip s).
Proof.
  destruct s as [|c t]; [trivial|]. cbn [rstrip no_leading_space]. intros H.
  destruct (rstrip t); [rewrite H|]; exact H.
Qed.

Lemma lstrip_fixed (s : string) : no_leading_space s -> lstrip s = s.
Proof. destruct s as [|c t]; [reflexivity|]. cbn. intros ->. reflexivity. Qed.

Lemma rstrip_idempotent (s : string) : rstrip (rstrip s) = rstrip s.
Proof.
  induction s as [|c t IH]; [reflexivity|]. cbn [rstrip].
  destruct (rstrip t) as [|d r] eqn:E.
  - destruct (is_space c) eqn:Hc; [reflexivity|]. cbn [rstrip]. rewrite Hc. reflexivity.
  - cbn [rstrip] in IH |- *. change (rstrip (String c (String d r)))
      with (match rstrip (String d r) with
            | EmptyString => if is_space c then EmptyString else String c EmptyString
            | x => String c x
            end).
    rewrite IH. reflexivity.
Qed.

(** A stripped text is left as it is by another [strip]. *)
Lemma strip_idempotent (s : string) : strip (strip s) = strip s.
Proof.
  unfold strip.
  rewrite (lstrip_fixed (rstrip (lstrip s)))
    by apply rstrip_no_leading_space, lstrip_no_leading_space.
  apply rstrip_idempotent.
Qed.

(** The three origins of a reply. *)
Lemma reply_origin (e : env) (request : ChatRequest) :
  exists text,
    fst (serve e request) = {| status := 200; content := reply text |}
    /\ (text = DIFFICULTIES_REPLY \/ text = BUSY_REPLY
        \/ exists s, text = strip (replace "OpenRouter" "SCCS" s)).
Proof.
  destruct (is_empty (strip (message request))) eqn:Hb.
  - rewrite (blank_message_run e request Hb). eexists. split; [reflexivity | tauto].
  - unfold serve. rewrite (chat_endpoint_run e request Hb).
    destruct (library_context_of e (message request) (lower (message request)) [])
      as [[lc|ex] tr]; cbn [fst respond]; [|eexists; split; [reflexivity | tauto]].
    unfold after_completion.
    destruct (completion_service e (completion_payload (conversation request lc)))
      as [| |st [j|]]; try (eexists; split; [reflexivity | tauto]);
      destruct ((400 <=? st) && (st <? 600))%bool;
      try (eexists; split; [reflexivity | tauto]).
    unfold ai_message_of.
    destruct (item j "choices") as [choices|]; cbn [rbind];
      [|eexists; split; [reflexivity | tauto]].
    destruct (item0 choices) as [first|]; cbn [rbind];
      [|eexists; split; [reflexivity | tauto]].
    destruct (item first "message") as [msg|]; cbn [rbind];
      [|eexists; split; [reflexivity | tauto]].
    destruct (item msg "content") as [[| | |s| |]|]; cbn [rbind];
      try (eexists; split; [reflexivity | tauto]).
    eexists. split; [reflexivity|]. right. right. exists s. reflexivity.
Qed.

Lemma reply_injective (a b : string) :
  {| status := 200; content := reply a |} = {| status := 200; content := reply b |} -> a = b.
Proof. intros H. injection H as H. exact H. Qed.

(** X6: no reply holds the word "OpenRouter": every occurrence in the
    completion text is replaced, the replacing brings no new one, and the
    two fixed replies have none. *)
Theorem X6_reply_without_provider_name :
  forall (e : env) (request : ChatRequest) (text : string),
    fst (serve e request) = {| status := 200; content := reply text |} ->
    contains "OpenRouter" text = false.
Proof.
  intros e request text H.
  destruct (reply_origin e request) as (t & Ht & Ho).
  rewrite Ht in H. apply reply_injective in H. subst t.
  destruct Ho as [->|[->|[s ->]]]; try reflexivity.
  destruct (contains "OpenRouter" (strip (replace "OpenRouter" "SCCS" s))) eqn:E;
    [|reflexivity].
  apply contains_strip in E.
  rewrite (replace_leaves_none "O" "S" "penRouter" "CCS" eq_refl eq_refl s) in E.
  discriminate.
Qed.

Lemma X6_reply_without_provider_name_witness :
  fst (serve (Scenario.branded Scenario.quiet) (Scenario.request_of "Who are you?"))
  = {| status := 200; content := reply "SCCS here, via SCCS." |}
  /\ contains "OpenRouter" "SCCS here, via SCCS." = false.
Proof.
  split; [reflexivity|].
  apply (X6_reply_without_provider_name (Scenario.branded Scenario.quiet)
           (Scenario.request_of "Who are you?")).
  reflexivity.
Defined.

(** X7: every reply is trimmed: it neither begins nor ends with white
    space, so stripping it again changes nothing. *)
Theorem X7_reply_is_trimmed :
  forall (e : env) (request : ChatRequest) (text : string),
    fst (serve e request) = {| status := 200; content := reply text |} ->
    strip text = text.
Proof.
  intros e request text H.
  destruct (reply_origin e request) as (t & Ht & Ho).
  rewrite Ht in H. apply reply_injective in H. subst t.
  destruct Ho as [->|[->|[s ->]]]; try reflexivity.
  apply strip_idempotent.
Qed.

Lemma X7_reply_is_trimmed_witness :
  strip "SCCS here, via SCCS." = "SCCS here, via SCCS."%string.
Proof.
  apply (X7_reply_is_trimmed (Scenario.branded Scenario.quiet)
           (Scenario.request_of "Who are you?")).
  reflexivity.
Defined.

(** ** The completion step *)

Lemma passes_not_raised (st : Z) : passes st -> ((400 <=? st) && (st <? 600))%bool = false.
Proof.
  intros [H|H]; apply andb_false_iff; [left; apply Z.leb_gt | right; apply Z.ltb_ge]; lia.
Qed.

Lemma field_item (k : string) (record v : json) :
  field k record = v -> v <> JNull -> item record k = Ok v.
Proof.
  unfold field, item. destruct record as [| | | | |d]; try congruence.
  destruct (lookup k d); congruence.
Qed.

Lemma field_null_item (k : string) (record : json) :
  field k record = JNull -> item record k = Ok JNull \/ exists ex, item record k = Raise ex.
Proof.
  unfold field, item. destruct record as [| | | | |d]; try (right; eexists; reflexivity).
  destruct (lookup k d); [intros ->; left; reflexivity | right; eexists; reflexivity].
Qed.

(** X8: for a message in ASCII, when the completion service answers with
    a status that is no 4xx or 5xx and a JSON body whose first choice has
    an ASCII text, the reply is that text with "OpenRouter" replaced by
    "SCCS" and white space trimmed; further choices and other fields of the
    body play no part. *)
Theorem X8_first_choice_is_the_reply :
  forall (e : env) (request : ChatRequest) (lc : string) (calls : list call)
         (st : Z) (body choice msg : json) (more : list json) (text : string),
    is_ascii (message request) = true ->
    is_ascii text = true ->
    is_empty (strip (message request)) = false ->
    library_context_of e (message request) (lower (message request)) [] = (Ok lc, calls) ->
    completion_service e (sent_payload (sent_messages request lc))
    = Response st (Some body) ->
    passes st ->
    field "choices" body = JList (choice :: more) ->
    field "message" choice = msg ->
    field "content" msg = JStr text ->
    serve e request
    = ({| status := 200; content := reply (strip (replace "OpenRouter" "SCCS" text)) |},
       (calls ++ [completion_request e (sent_messages request lc)])%list).
Proof.
  intros e request lc calls st body choice msg more text _ _ Hb Hl Hc Hst H1 H2 H3.
  unfold serve. rewrite (chat_endpoint_run e request Hb), Hl.
  rewrite completion_post_sent, conversation_spec.
  change (completion_payload
            (spec_conversation (prior_context request) lc (message request)))
    with (sent_payload (sent_messages request lc)).
  rewrite Hc.
  unfold after_completion. rewrite (passes_not_raised st Hst).
  unfold ai_message_of.
  rewrite (field_item _ _ _ H1) by discriminate. cbn [rbind item0].
  assert (Hm : msg <> JNull) by (intros ->; discriminate H3).
  rewrite (field_item _ _ _ H2 Hm). cbn [rbind].
  rewrite (field_item _ _ _ H3) by discriminate. reflexivity.
Qed.

Lemma X8_first_choice_is_the_reply_witness :
  fst (serve (Scenario.two_choices Scenario.quiet) (Scenario.request_of "Hello"))
  = {| status := 200; content := reply "First." |}.
Proof.
  exact (f_equal fst
           (X8_first_choice_is_the_reply (Scenario.two_choices Scenario.quiet)
              (Scenario.request_of "Hello") "" [] 200 _ _ _ _ " First. "
              eq_refl eq_refl eq_refl eq_refl eq_refl (or_introl eq_refl)
              eq_refl eq_refl eq_refl)).
Defined.

(** X9: for a message in ASCII, when the completion service answers with
    a status that is no 4xx or 5xx but without a usable first choice (a
    body that is not JSON, no "choices", or an empty list of choices), the
    reply is the "technical difficulties" one, at status 200. *)
Theorem X9_no_choice_no_text :
  forall (e : env) (request : ChatRequest) (lc : string) (calls : list call)
         (st : Z) (body : option json),
    is_ascii (message request) = true ->
    is_empty (strip (message request)) = false ->
    library_context_of e (message request) (lower (message request)) [] = (Ok lc, calls) ->
    completion_service e (sent_payload (sent_messages request lc)) = Response st body ->
    passes st ->
    (body = None
     \/ exists j, body = Some j
                  /\ (field "choices" j = JNull \/ field "choices" j = JList [])) ->
    serve e request
    = ({| status := 200; content := reply DIFFICULTIES_REPLY |},
       (calls ++ [completion_request e (sent_messages request lc)])%list).
Proof.
  intros e request lc calls st body _ Hb Hl Hc Hst Hbody.
  unfold serve. rewrite (chat_endpoint_run e request Hb), Hl.
  rewrite completion_post_sent, conversation_spec.
  change (completion_payload
            (spec_conversation (prior_context request) lc (message request)))
    with (sent_payload (sent_messages request lc)).
  rewrite Hc.
  unfold after_completion. rewrite (passes_not_raised st Hst).
  destruct Hbody as [->|(j & -> & Hj)]; [reflexivity|].
  unfold ai_message_of. destruct Hj as [Hj|Hj].
  - destruct (field_null_item _ _ Hj) as [->|[ex ->]]; reflexivity.
  - rewrite (field_item _ _ _ Hj) by discriminate. reflexivity.
Qed.

Lemma X9_no_choice_no_text_witness :
  fst (serve (Scenario.no_choice Scenario.quiet) (Scenario.request_of "Hello"))
  = {| status := 200; content := reply DIFFICULTIES_REPLY |}.
Proof.
  exact (f_equal fst
           (X9_no_choice_no_text (Scenario.no_choice Scenario.quiet)
              (Scenario.request_of "Hello") "" [] 200 _
              eq_refl eq_refl eq_refl eq_refl (or_introl eq_refl)
              (or_intror (ex_intro _ _ (conj eq_refl (or_intror eq_refl)))))).
Defined.

(** ** The data client *)

(** X10: a call of the data client never raises and makes exactly one GET,
    to the base URL and endpoint, with the bearer key and a timeout of five
    seconds; when the service answers with a status that is no 4xx or 5xx
    and a JSON body, the caller gets that body. *)
Theorem X10_data_client :
  forall (e : env) (endpoint : string) (params : option params_t) (tr : list call),
    exists v : json,
      fetch_library_data e endpoint params tr
      = (Ok v,
         (tr ++ [GET (LIBRARY_API_BASE ++ "/" ++ endpoint)%string params
                   [("Authorization", ("Bearer " ++ LIBRARY_API_KEY e)%string)] 5])%list)
      /\ (forall (st : Z) (j : json),
             library_service e endpoint params = Response st (Some j) ->
             passes st -> v = j).
Proof.
  intros e endpoint params tr. rewrite fetch_library_data_run.
  eexists. split; [reflexivity|].
  intros st j Hr Hst. rewrite Hr. unfold fetched.
  rewrite (passes_not_raised st Hst). reflexivity.
Qed.

Lemma X10_data_client_witness :
  fst (fetch_library_data (Scenario.with_three_seats Scenario.quiet)
         "libraries/1/seats/availability" None [])
  = Ok (JList Scenario.three_seats).
Proof.
  destruct (X10_data_client (Scenario.with_three_seats Scenario.quiet)
              "libraries/1/seats/availability" None []) as (v & Hrun & Hv).
  rewrite Hrun. cbn [fst]. f_equal.
  apply (Hv 200 (JList Scenario.three_seats)); [reflexivity | left; reflexivity].
Defined.

(** ** The listings *)

Lemma block_of_first_ok (n : nat) (header : string) (line : json -> result string)
    (text : json -> string) (xs : list json) :
  Forall (fun x => line x = Ok (text x)) (firstn n xs) ->
  block_of_first n header line (JList xs)
  = Ok (header ++ LF ++ join LF (map text (firstn n xs))).
Proof.
  intros H. unfold block_of_first. cbn [slice_to rbind iter].
  rewrite (rmap_ok line text _ H). reflexivity.
Qed.

Lemma block_of_all_ok (header : string) (line : json -> result string)
    (text : json -> string) (xs : list json) :
  Forall (fun x => line x = Ok (text x)) xs ->
  block_of_all header line (JList xs) = Ok (header ++ LF ++ join LF (map text xs)).
Proof.
  intros H. unfold block_of_all. cbn [rbind iter].
  rewrite (rmap_ok line text _ H). reflexivity.
Qed.

Lemma Forall_line (record : json -> Prop) (line : json -> result string)
    (text : json -> string) (xs : list json) :
  (forall x, record x -> line x = Ok (text x)) ->
  Forall record xs -> Forall (fun x => line x = Ok (text x)) xs.
Proof. intros H Hall. induction Hall; constructor; auto. Qed.

Lemma book_line_dict (b : json) : is_dict b = true -> book_line b = Ok (book_text b).
Proof. destruct b; try discriminate. reflexivity. Qed.

Lemma computer_line_record (c : json) :
  computer_record c -> computer_line c = Ok (computer_text c).
Proof.
  intros (H1 & H2 & H3). unfold computer_line, computer_text.
  rewrite (item_field _ _ H1), (item_field _ _ H2), (item_field _ _ H3). reflexivity.
Qed.

Lemma announcement_line_record (a : json) :
  announcement_record a -> announcement_line a = Ok (announcement_text a).
Proof.
  intros (H1 & s & H2 & _). unfold announcement_line, announcement_text, body_text.
  rewrite (item_field _ _ H1), (field_item _ _ _ H2) by discriminate.
  rewrite H2. reflexivity.
Qed.

Lemma hours_line_record (day : json) : hours_record day -> hours_line day = Ok (hours_text day).
Proof.
  intros (H1 & H2 & H3). unfold hours_line, hours_text.
  rewrite (item_field _ _ H1), (item_field _ _ H2), (item_field _ _ H3). reflexivity.
Qed.

Lemma study_room_line_record (r : json) :
  study_room_record r -> study_room_line r = Ok (study_room_text r).
Proof.
  intros (H1 & H2 & H3). unfold study_room_line, study_room_text.
  rewrite (item_field _ _ H1), (item_field _ _ H2), (item_field _ _ H3). reflexivity.
Qed.

Lemma room_line_record (r : json) : room_record r -> room_line r = Ok (room_text r).
Proof.
  intros (H1 & H2). unfold room_line, room_text.
  rewrite (item_field _ _ H1), (item_field _ _ H2). reflexivity.
Qed.

Lemma truthy_list (xs : list json) : xs <> [] -> truthy (JList xs) = true.
Proof. destruct xs; [contradiction | reflexivity]. Qed.

(** X11: when the book search answers with items (under "items" of a
    dict, or as a bare list), no fallback call is made and the enrichment
    lists the first five of them, one line each, a record without title,
    author or copies being shown with "?", "?" and 0; records behind the
    fifth are not looked at. *)
Theorem X11_books_of_the_search :
  forall (e : env) (msg : string) (items : list json),
    first_items (fetched (library_service e "books" (Some (book_params msg)))) = JList items ->
    items <> [] ->
    Forall (fun b => is_dict b = true) (firstn 5 items) ->
    book_search e msg []
    = (Ok (BOOKS_HEADER ++ LF ++ join LF (map book_text (firstn 5 items))),
       [library_get e "books" (Some (book_params msg))]).
Proof.
  intros e msg items Hi Hne Hd. rewrite book_search_run. cbv zeta.
  rewrite Hi, (truthy_list items Hne).
  rewrite (block_of_first_ok 5 _ book_line book_text)
    by (apply (Forall_line (fun b => is_dict b = true)); [exact book_line_dict | exact Hd]).
  reflexivity.
Qed.

Lemma X11_books_of_the_search_witness :
  fst (book_search (Scenario.two_books Scenario.quiet) "a book on databases" [])
  = Ok (BOOKS_HEADER ++ LF ++ "Databases by Date (Available: 3)" ++ LF
        ++ "? by ? (Available: 0)").
Proof.
  exact (f_equal fst
           (X11_books_of_the_search (Scenario.two_books Scenario.quiet)
              "a book on databases" _ eq_refl ltac:(discriminate)
              ltac:(repeat constructor))).
Defined.

(** X12: when the search gives no items and the first page comes as a
    dict with items, the enrichment lists the first five books of that
    page, after exactly the two calls. *)
Theorem X12_books_of_the_first_page :
  forall (e : env) (msg : string) (d : list (string * json)) (items : list json),
    truthy (first_items (fetched (library_service e "books" (Some (book_params msg)))))
    = false ->
    fetched (library_service e "books" (Some first_page)) = JDict d ->
    lookup "items" d = Some (JList items) ->
    items <> [] ->
    Forall (fun b => is_dict b = true) (firstn 5 items) ->
    book_search e msg []
    = (Ok (BOOKS_HEADER ++ LF ++ join LF (map book_text (firstn 5 items))),
       [library_get e "books" (Some (book_params msg));
        library_get e "books" (Some first_page)]).
Proof.
  intros e msg d items H1 H2 H3 Hne Hd. rewrite book_search_run. cbv zeta.
  rewrite H1, H2. cbn [dict_get is_list rbind]. rewrite H3, (truthy_list items Hne).
  rewrite (block_of_first_ok 5 _ book_line book_text)
    by (apply (Forall_line (fun b => is_dict b = true)); [exact book_line_dict | exact Hd]).
  reflexivity.
Qed.

Lemma X12_books_of_the_first_page_witness :
  fst (book_search (Scenario.first_page_only Scenario.quiet) "a book on nothing" [])
  = Ok (BOOKS_HEADER ++ LF ++ "Algebra by Lang (Available: 0)").
Proof.
  exact (f_equal fst
           (X12_books_of_the_first_page (Scenario.first_page_only Scenario.quiet)
              "a book on nothing" _ _ eq_refl eq_refl eq_refl ltac:(discriminate)
              ltac:(repeat constructor))).
Defined.

Lemma rfilter_raises {A : Type} (keep : A -> result bool) (xs : list A) :
  (exists x, In x xs /\ exists ex, keep x = Raise ex) ->
  exists ex, rfilter keep xs = Raise ex.
Proof.
  induction xs as [|y ys IH]; intros (x & Hin & ex & Hx); [destruct Hin|].
  cbn [rfilter]. destruct (keep y) as [b|ey] eqn:Ey; [|eexists; reflexivity].
  cbn [rbind]. destruct Hin as [->|Hin]; [congruence|].
  destruct (IH (ex_intro _ x (conj Hin (ex_intro _ ex Hx)))) as [ex' ->].
  eexists. reflexivity.
Qed.

Lemma item_missing (k : string) (record : json) :
  ~ has_field k record -> exists ex, item record k = Raise ex.
Proof.
  intros H. unfold item. destruct record as [| | | | |d]; try (eexists; reflexivity).
  destruct (lookup k d) as [v|] eqn:E; [|eexists; reflexivity].
  exfalso. apply H. exists d, v. split; [reflexivity | exact E].
Qed.

(** X13: for a seat question in ASCII, a seat record without
    [is_occupied] anywhere in the answer, also behind the fifth free seat,
    ends the request in the "technical difficulties" reply: after the one
    data call no completion call is made. *)
Theorem X13_seat_without_flag_is_fatal :
  forall (e : env) (request : ChatRequest) (seats : list json),
    let um := lower (message request) in
    let endpoint :=
      ("libraries/" ++ of_Z (get_campus_id (message request)) ++ "/seats/availability")%string in
    is_ascii (message request) = true ->
    contains "seat" um = true ->
    contains "book" um = false ->
    contains "computer" um = false ->
    fetched (library_service e endpoint None) = JList seats ->
    (exists s, In s seats /\ ~ has_field "is_occupied" s) ->
    serve e request
    = ({| status := 200; content := reply DIFFICULTIES_REPLY |},
       [library_get e endpoint None]).
Proof.
  intros e request seats um endpoint Hascii Hs Hb Hc Hf (s & Hin & Hno).
  unfold serve.
  rewrite chat_endpoint_run
    by (apply (keyword_not_blank "s" "eat"); [reflexivity | exact Hs]).
  fold um. unfold library_context_of.
  rewrite (gate_opens um "seat") by (simpl; tauto || exact Hs).
  unfold sub_intent. cbv zeta. fold um.
  rewrite Hb, (no_book_no_textbook um Hb), Hc, Hs. cbn [orb].
  fold endpoint. rewrite fetch_and_format_run, Hf.
  rewrite truthy_list by (intros ->; destruct Hin).
  unfold seats_block. cbn [iter rbind].
  destruct (rfilter_raises seat_is_free seats) as [ex ->].
  - exists s. split; [exact Hin|]. unfold seat_is_free.
    destruct (item_missing _ _ Hno) as [ex ->]. eexists. reflexivity.
  - reflexivity.
Qed.

Lemma X13_seat_without_flag_is_fatal_witness :
  serve (Scenario.broken_seats Scenario.quiet) (Scenario.request_of "Is any seat free?")
  = ({| status := 200; content := reply DIFFICULTIES_REPLY |},
     [library_get Scenario.quiet "libraries/1/seats/availability" None]).
Proof.
  apply (X13_seat_without_flag_is_fatal (Scenario.broken_seats Scenario.quiet)
           (Scenario.request_of "Is any seat free?")
           [Scenario.seat "S1" false false; JDict [("identifier", JStr "S2")]]);
    try reflexivity.
  exists (JDict [("identifier", JStr "S2")]). split; [right; left; reflexivity|].
  intros (d & v & Hd & Hv). injection Hd as <-. discriminate Hv.
Defined.

(** X14: a computer question (no "book" in it) answered with a non-empty
    list gets the header and one line for each of the first five
    computers, occupied ones included, each marked "Occupied" or "Free";
    only those five records are read. *)
Theorem X14_computer_listing :
  forall (e : env) (msg : string) (computers : list json),
    let um := lower msg in
    let endpoint := ("libraries/" ++ of_Z (get_campus_id msg) ++ "/computers")%string in
    contains "computer" um = true ->
    contains "book" um = false ->
    fetched (library_service e endpoint None) = JList computers ->
    computers <> [] ->
    Forall computer_record (firstn 5 computers) ->
    library_context_of e msg um []
    = (Ok ("Available Computers:" ++ LF
           ++ join LF (map computer_text (firstn 5 computers))),
       [library_get e endpoint None]).
Proof.
  intros e msg computers um endpoint Hc Hb Hf Hne Hrec.
  unfold library_context_of.
  rewrite (gate_opens um "computer") by (simpl; tauto || exact Hc).
  unfold sub_intent. cbv zeta. fold um.
  rewrite Hb, (no_book_no_textbook um Hb), Hc. cbn [orb].
  fold endpoint. rewrite fetch_and_format_run, Hf, (truthy_list _ Hne).
  rewrite (block_of_first_ok 5 _ computer_line computer_text)
    by (apply (Forall_line computer_record); [exact computer_line_record | exact Hrec]).
  reflexivity.
Qed.

Lemma X14_computer_listing_witness :
  fst (library_context_of (Scenario.answering Scenario.quiet Scenario.six_computers)
         "Which computer is free?" (lower "Which computer is free?") [])
  = Ok ("Available Computers:" ++ LF
        ++ "PC1 (i5) — Free" ++ LF ++ "PC2 (i5) — Occupied" ++ LF
        ++ "PC3 (i7) — Free" ++ LF ++ "PC4 (i7) — Free" ++ LF
        ++ "PC5 (i3) — Occupied").
Proof.
  assert (Hrec : Forall computer_record (firstn 5 Scenario.six_computers)).
  { repeat constructor; eexists _, _; split; reflexivity. }
  exact (f_equal fst
           (X14_computer_listing (Scenario.answering Scenario.quiet Scenario.six_computers)
              "Which computer is free?" Scenario.six_computers
              eq_refl eq_refl eq_refl ltac:(discriminate) Hrec)).
Defined.

(** X15: an announcement or news question that passes the gate and has
    no "book", "computer" or "seat" asks for announcements with limit 3
    and lists every announcement of the answer, however many: the title,
    then the first fifty characters of the body, an ASCII text, followed by
    "...". *)
Theorem X15_announcement_listing :
  forall (e : env) (msg : string) (announcements : list json),
    let um := lower msg in
    existsb (fun keyword => contains keyword um) GATE_KEYWORDS = true ->
    contains "book" um = false ->
    contains "computer" um = false ->
    contains "seat" um = false ->
    (contains "announcement" um || contains "news" um)%bool = true ->
    fetched (library_service e "announcements" (Some [("limit", JInt 3)]))
    = JList announcements ->
    announcements <> [] ->
    Forall announcement_record announcements ->
    library_context_of e msg um []
    = (Ok ("Latest Announcements:" ++ LF ++ join LF (map announcement_text announcements)),
       [library_get e "announcements" (Some [("limit", JInt 3)])]).
Proof.
  intros e msg announcements um Hg Hb Hc Hs Ha Hf Hne Hrec.
  unfold library_context_of. fold um. rewrite Hg.
  unfold sub_intent. cbv zeta. fold um.
  rewrite Hb, (no_book_no_textbook um Hb), Hc, Hs. cbn [orb]. rewrite Ha.
  rewrite fetch_and_format_run, Hf, (truthy_list _ Hne).
  rewrite (block_of_all_ok _ announcement_line announcement_text)
    by (apply (Forall_line announcement_record);
        [exact announcement_line_record | exact Hrec]).
  reflexivity.
Qed.

Lemma X15_announcement_listing_witness :
  fst (library_context_of
         (Scenario.answering Scenario.quiet [Scenario.long_announcement])
         "Any library news?" (lower "Any library news?") [])
  = Ok ("Latest Announcements:" ++ LF
        ++ "Exam hours: The library stays open until midnight during the w...").
Proof.
  assert (Hrec : Forall announcement_record [Scenario.long_announcement]).
  { repeat constructor;
      [eexists _, _; split; reflexivity | eexists; split; reflexivity]. }
  exact (f_equal fst
           (X15_announcement_listing
              (Scenario.answering Scenario.quiet [Scenario.long_announcement])
              "Any library news?" [Scenario.long_announcement]
              eq_refl eq_refl eq_refl eq_refl eq_refl eq_refl
              ltac:(discriminate) Hrec)).
Defined.

(** X16: an hours question (with "hour", "open" or "close", past the gate
    and past the four earlier branches) gets one line for every record of
    the answer, with both times through [format_time]: times that do not
    parse are shown as they came. *)
Theorem X16_hours_listing :
  forall (e : env) (msg : string) (days : list json),
    let um := lower msg in
    let endpoint := ("libraries/" ++ of_Z (get_campus_id msg) ++ "/hours")%string in
    existsb (fun keyword => contains keyword um) GATE_KEYWORDS = true ->
    contains "book" um = false ->
    contains "computer" um = false ->
    contains "seat" um = false ->
    contains "announcement" um = false ->
    contains "news" um = false ->
    (contains "hour" um || contains "open" um || contains "close" um)%bool = true ->
    fetched (library_service e endpoint None) = JList days ->
    days <> [] ->
    Forall hours_record days ->
    library_context_of e msg um []
    = (Ok ("Library Hours:" ++ LF ++ join LF (map hours_text days)),
       [library_get e endpoint None]).
Proof.
  intros e msg days um endpoint Hg Hb Hc Hs Ha Hn Hh Hf Hne Hrec.
  unfold library_context_of. fold um. rewrite Hg.
  unfold sub_intent. cbv zeta. fold um.
  rewrite Hb, (no_book_no_textbook um Hb), Hc, Hs, Ha, Hn. cbn [orb]. rewrite Hh.
  fold endpoint. rewrite fetch_and_format_run, Hf, (truthy_list _ Hne).
  rewrite (block_of_all_ok _ hours_line hours_text)
    by (apply (Forall_line hours_record); [exact hours_line_record | exact Hrec]).
  reflexivity.
Qed.

Lemma X16_hours_listing_witness :
  fst (library_context_of (Scenario.answering Scenario.quiet Scenario.weekend_hours)
         "Library hours at Siyabuswa?" (lower "Library hours at Siyabuswa?") [])
  = Ok ("Library Hours:" ++ LF ++ "Saturday: 08:00 AM to 01:00 PM" ++ LF
        ++ "Sunday: closed to -").
Proof.
  assert (Hrec : Forall hours_record Scenario.weekend_hours).
  { repeat constructor; eexists _, _; split; reflexivity. }
  exact (f_equal fst
           (X16_hours_listing (Scenario.answering Scenario.quiet Scenario.weekend_hours)
              "Library hours at Siyabuswa?" Scenario.weekend_hours
              eq_refl eq_refl eq_refl eq_refl eq_refl eq_refl eq_refl eq_refl
              ltac:(discriminate) Hrec)).
Defined.

(** X17: a study-room question ("study room" or "group study", past the
    gate and past the five earlier branches) asks for the study rooms and
    lists the first three of the answer with capacity and members; only
    those three records are read. *)
Theorem X17_study_room_listing :
  forall (e : env) (msg : string) (rooms : list json),
    let um := lower msg in
    existsb (fun keyword => contains keyword um) GATE_KEYWORDS = true ->
    contains "book" um = false ->
    contains "computer" um = false ->
    contains "seat" um = false ->
    contains "announcement" um = false ->
    contains "news" um = false ->
    contains "hour" um = false ->
    contains "open" um = false ->
    contains "close" um = false ->
    (contains "study room" um || contains "group study" um)%bool = true ->
    fetched (library_service e "study_rooms" None) = JList rooms ->
    rooms <> [] ->
    Forall study_room_record (firstn 3 rooms) ->
    library_context_of e msg um []
    = (Ok ("Study Rooms:" ++ LF ++ join LF (map study_room_text (firstn 3 rooms))),
       [library_get e "study_rooms" None]).
Proof.
  intros e msg rooms um Hg Hb Hc Hs Ha Hn Hh Ho Hcl Hr Hf Hne Hrec.
  unfold library_context_of. fold um. rewrite Hg.
  unfold sub_intent. cbv zeta. fold um.
  rewrite Hb, (no_book_no_textbook um Hb), Hc, Hs, Ha, Hn, Hh, Ho, Hcl. cbn [orb].
  rewrite Hr.
  rewrite fetch_and_format_run, Hf, (truthy_list _ Hne).
  rewrite (block_of_first_ok 3 _ study_room_line study_room_text)
    by (apply (Forall_line study_room_record);
        [exact study_room_line_record | exact Hrec]).
  reflexivity.
Qed.

Lemma X17_study_room_listing_witness :
  fst (library_context_of (Scenario.answering Scenario.quiet Scenario.four_study_rooms)
         "Is a study room free?" (lower "Is a study room free?") [])
  = Ok ("Study Rooms:" ++ LF ++ "A (6 seats, 2 occupied)" ++ LF
        ++ "B (4 seats, 4 occupied)" ++ LF ++ "C (8 seats, 0 occupied)").
Proof.
  assert (Hrec : Forall study_room_record (firstn 3 Scenario.four_study_rooms)).
  { repeat constructor; eexists _, _; split; reflexivity. }
  exact (f_equal fst
           (X17_study_room_listing
              (Scenario.answering Scenario.quiet Scenario.four_study_rooms)
              "Is a study room free?" Scenario.four_study_rooms
              eq_refl eq_refl eq_refl eq_refl eq_refl eq_refl eq_refl eq_refl eq_refl
              eq_refl eq_refl ltac:(discriminate) Hrec)).
Defined.

(** X18: the general room listing is the last resort: a message with
    "room" or "venue" and none of the ten earlier trigger words asks for
    the rooms of the campus and lists every room of the answer, with its
    type. *)
Theorem X18_room_listing :
  forall (e : env) (msg : string) (rooms : list json),
    let um := lower msg in
    let endpoint := ("libraries/" ++ of_Z (get_campus_id msg) ++ "/rooms")%string in
    contains "book" um = false ->
    contains "computer" um = false ->
    contains "seat" um = false ->
    contains "announcement" um = false ->
    contains "news" um = false ->
    contains "hour" um = false ->
    contains "open" um = false ->
    contains "close" um = false ->
    contains "study room" um = false ->
    contains "group study" um = false ->
    (contains "room" um || contains "venue" um)%bool = true ->
    fetched (library_service e endpoint None) = JList rooms ->
    rooms <> [] ->
    Forall room_record rooms ->
    library_context_of e msg um []
    = (Ok ("Available Rooms:" ++ LF ++ join LF (map room_text rooms)),
       [library_get e endpoint None]).
Proof.
  intros e msg rooms um endpoint Hb Hc Hs Ha Hn Hh Ho Hcl Hsr Hgs Hr Hf Hne Hrec.
  assert (Hg : existsb (fun keyword => contains keyword um) GATE_KEYWORDS = true).
  { apply orb_true_iff in Hr. destruct Hr as [Hr|Hr].
    - apply (gate_opens um "room"); [simpl; tauto | exact Hr].
    - apply (gate_opens um "venue"); [simpl; tauto | exact Hr]. }
  unfold library_context_of. fold um. rewrite Hg.
  unfold sub_intent. cbv zeta. fold um.
  rewrite Hb, (no_book_no_textbook um Hb), Hc, Hs, Ha, Hn, Hh, Ho, Hcl, Hsr, Hgs.
  cbn [orb]. rewrite Hr.
  fold endpoint. rewrite fetch_and_format_run, Hf, (truthy_list _ Hne).
  rewrite (block_of_all_ok _ room_line room_text)
    by (apply (Forall_line room_record); [exact room_line_record | exact Hrec]).
  reflexivity.
Qed.

Lemma X18_room_listing_witness :
  fst (library_context_of (Scenario.answering Scenario.quiet Scenario.two_rooms)
         "Which venue can I use?" (lower "Which venue can I use?") [])
  = Ok ("Available Rooms:" ++ LF ++ "Auditorium (venue)" ++ LF ++ "Lab 2 (lab)").
Proof.
  assert (Hrec : Forall room_record Scenario.two_rooms).
  { repeat constructor; eexists _, _; split; reflexivity. }
  exact (f_equal fst
           (X18_room_listing (Scenario.answering Scenario.quiet Scenario.two_rooms)
              "Which venue can I use?" Scenario.two_rooms
              eq_refl eq_refl eq_refl eq_refl eq_refl eq_refl eq_refl eq_refl eq_refl
              eq_refl eq_refl eq_refl ltac:(discriminate) Hrec)).
Defined.

(** ** More on module codes *)

Lemma last_char_before (prev : option ascii) (c : ascii) (t : string) :
  before prev (String c t) = last_char (String c t).
Proof. unfold before. destruct (last_char_cons t c) as [z ->]. reflexivity. Qed.

(** A match at the head of a text that ends with no word character is a
    match at the head of every longer text. *)
Lemma match_here_longer (prev : option ascii) (s x r : string) :
  Re.match_here prev s = Some x ->
  Re.word_at (last_char s) = false ->
  Re.match_here prev (s ++ r) = Some x.
Proof.
  intros H Hl.
  destruct (match_here_inv _ _ _ H)
    as (a & b & c & d & e & f & g & r0 & -> & -> & Hp & Ha & Hb & Hc & Hd & He & Hf & Hg & Hr).
  destruct r0 as [|c0 r0].
  - cbn [last_char Re.word_at] in Hl. rewrite (digit_is_word g Hg) in Hl. discriminate.
  - cbn [append]. apply match_here_intro; assumption.
Qed.

Lemma search_from_sound (s : string) :
  forall prev m,
    Re.search_from prev s = Some m ->
    exists pre post,
      s = pre ++ m ++ post
      /\ code_shape m
      /\ Re.word_at (before prev pre) = false
      /\ Re.word_at (Re.head post) = false
      /\ Re.search_from prev pre = None.
Proof.
  induction s as [|c t IH]; intros prev m H; [discriminate H|].
  rewrite search_from_cons in H.
  destruct (Re.match_here prev (String c t)) as [m'|] eqn:E.
  - injection H as <-.
    destruct (match_here_inv _ _ _ E)
      as (a & b & c' & d & e & f & g & r & Es & Em & Hp & Ha & Hb & Hc & Hd & He & Hf & Hg & Hr).
    exists ""%string, r. rewrite Es, Em. repeat split; try assumption.
    exists a, b, c', d, e, f, g. repeat split; assumption.
  - destruct (IH _ _ H) as (pre & post & Et & Hshape & Hbefore & Hpost & Hnone).
    exists (String c pre), post. rewrite before_cons.
    repeat split; try assumption.
    + rewrite Et. reflexivity.
    + rewrite search_from_cons.
      destruct (Re.match_here prev (String c pre)) as [x|] eqn:Ex; [|exact Hnone].
      exfalso. rewrite <- before_cons with (prev := prev), last_char_before in Hbefore.
      pose proof (match_here_longer prev _ x (m ++ post) Ex Hbefore) as Hx.
      cbn [append] in Hx. rewrite <- Et in Hx. congruence.
Qed.

(** X19: whatever the search extracts is a token of the message as typed:
    three capital letters and four digits, with no letter, digit or
    underscore next to it on either side, and the text before it holds no
    such token: it is the first one. *)
Theorem X19_extracted_code_is_first_token :
  forall (msg m : string),
    Re.search_module_code msg = Some m ->
    exists pre post,
      msg = pre ++ m ++ post
      /\ code_shape m
      /\ Re.word_at (last_char pre) = false
      /\ Re.word_at (Re.head post) = false
      /\ Re.search_module_code pre = None.
Proof.
  intros msg m H.
  destruct (search_from_sound msg None m H) as (pre & post & E & Hs & Hb & Hp & Hn).
  exists pre, post. repeat split; try assumption.
  unfold before in Hb. destruct (last_char pre); [exact Hb | reflexivity].
Qed.

Lemma X19_extracted_code_is_first_token_witness :
  exists pre post,
    "Books for INF1511 and ABC1234?"%string = pre ++ INF1511 ++ post
    /\ Re.search_module_code pre = None.
Proof.
  destruct (X19_extracted_code_is_first_token "Books for INF1511 and ABC1234?" INF1511
              eq_refl) as (pre & post & E & _ & _ & _ & Hn).
  exists pre, post. split; assumption.
Defined.

(** X20: the search reads capital letters only: a message without any
    capital letter gives no module code, and its search call carries "q"
    alone. *)
Theorem X20_lower_case_code_not_extracted :
  forall msg : string,
    lower msg = msg ->
    Re.search_module_code msg = None /\ book_params msg = [("q", JStr msg)].
Proof.
  intros msg Hl.
  assert (Hs : Re.search_module_code msg = None).
  { destruct (Re.search_module_code msg) as [m|] eqn:E; [|reflexivity].
    exfalso. exact (no_token_in_lowercase msg Hl (search_from_token msg None m E)). }
  split; [exact Hs|]. unfold book_params. rewrite Hs. reflexivity.
Qed.

Lemma X20_lower_case_code_not_extracted_witness :
  book_params "textbook for inf1511" = [("q", JStr "textbook for inf1511")].
Proof.
  apply (X20_lower_case_code_not_extracted "textbook for inf1511"). reflexivity.
Defined.

(** X21: "book" typed in any letter case makes the request a book search,
    and its first call sends the message as it was typed under "q". *)
Theorem X21_book_question_in_any_case :
  forall (e : env) (request : ChatRequest) (pre w post : string),
    message request = pre ++ w ++ post ->
    lower w = "book"%string ->
    exists rest,
      hd_error (snd (serve e request))
      = Some (library_get e "books" (Some (("q", JStr (message request)) :: rest))).
Proof.
  intros e request pre w post Hm Hw.
  assert (Hb : contains "book" (lower (message request)) = true)
    by (rewrite Hm; apply contains_any_case, Hw).
  exists (match Re.search_module_code (message request) with
          | Some c => [("module", JStr c)]
          | None => []
          end).
  change (("q", JStr (message request)) :: _) with (book_params (message request)).
  unfold serve.
  rewrite chat_endpoint_run
    by (apply (keyword_not_blank "b" "ook"); [reflexivity | exact Hb]).
  unfold library_context_of.
  rewrite (gate_opens _ "book") by (simpl; tauto || exact Hb).
  unfold sub_intent. cbv zeta. rewrite Hb. cbn [orb].
  rewrite book_search_run. cbv zeta.
  destruct (truthy (first_items _));
    match goal with
    | |- context [match ?r with Ok _ => _ | Raise _ => _ end] => destruct r
    end; reflexivity.
Qed.

Lemma X21_book_question_in_any_case_witness :
  exists rest,
    hd_error (snd (serve Scenario.quiet (Scenario.request_of "BOOKS on INF1511?")))
    = Some (library_get Scenario.quiet "books"
              (Some (("q", JStr "BOOKS on INF1511?") :: rest))).
Proof.
  exact (X21_book_question_in_any_case Scenario.quiet
           (Scenario.request_of "BOOKS on INF1511?") "" "BOOK" "S on INF1511?"
           eq_refl eq_refl).
Defined.

(** ** More on times *)

Lemma strptime_bounds (s : string) (h m : nat) :
  Datetime.strptime s = Ok (h, m) -> (h < 24)%nat /\ (m < 60)%nat.
Proof.
  unfold Datetime.strptime. intros H.
  destruct (Datetime.first_match (Datetime.H_matches s)) as [[[h' m'] rest]|] eqn:E;
    [|discriminate].
  destruct rest; [|discriminate]. injection H as -> ->.
  destruct (first_match_sound _ _ _ _ E) as (r' & Hh & Hm).
  destruct (H_matches_sound _ _ _ Hh) as (Lh & _).
  destruct (M_matches_sound _ _ _ Hm) as (Lm & _).
  split; assumption.
Qed.

Lemma all_formatted_final :
  forallb (fun h => forallb (fun m => formatted_is_final h m) (seq 0 60)) (seq 0 24) = true.
Proof. vm_compute. reflexivity. Qed.

Lemma strftime_not_parsed (h m : nat) :
  (h < 24)%nat -> (m < 60)%nat ->
  exists ex, Datetime.strptime (Datetime.strftime h m) = Raise ex.
Proof.
  intros Lh Lm. pose proof all_formatted_final as H.
  rewrite forallb_forall in H. specialize (H h). rewrite in_seq in H.
  specialize (H ltac:(lia)).
  rewrite forallb_forall in H. specialize (H m). rewrite in_seq in H.
  specialize (H ltac:(lia)).
  unfold formatted_is_final in H.
  destruct (Datetime.strptime (Datetime.strftime h m)); [discriminate | eexists; reflexivity].
Qed.

(** X22: [format_time] is idempotent: what it returns (a 12-hour text, or
    the value it could not parse) it returns unchanged when given it
    again. *)
Theorem X22_format_time_idempotent :
  forall v : json, format_time (format_time v) = format_time v.
Proof.
  intros [| | |s| |]; try reflexivity.
  cbn [format_time]. destruct (Datetime.strptime s) as [[h m]|ex] eqn:E.
  - destruct (strptime_bounds s h m E) as [Lh Lm].
    cbn [format_time]. destruct (strftime_not_parsed h m Lh Lm) as [ex ->]. reflexivity.
  - cbn [format_time]. rewrite E. reflexivity.
Qed.

(** ** Old context *)

(** X23: of the prior context only the last three messages count: two
    requests with the same message whose contexts end in the same three
    messages get the same response after the same calls; an absent and an
    empty context count alike. *)
Theorem X23_only_last_three_count :
  forall (e : env) (r1 r2 : ChatRequest),
    message r1 = message r2 ->
    last3 (prior_context r1) = last3 (prior_context r2) ->
    serve e r1 = serve e r2.
Proof.
  intros e r1 r2 Hm Hc.
  assert (Hconv : forall lc, conversation r1 lc = conversation r2 lc).
  { intros lc. rewrite !conversation_spec. unfold spec_conversation.
    rewrite Hm, Hc. reflexivity. }
  destruct (is_empty (strip (message r1))) eqn:Hb.
  - rewrite (blank_message_run e r1 Hb).
    rewrite Hm in Hb. rewrite (blank_message_run e r2 Hb). reflexivity.
  - unfold serve. rewrite (chat_endpoint_run e r1 Hb).
    rewrite Hm in Hb. rewrite (chat_endpoint_run e r2 Hb). rewrite Hm.
    destruct (library_context_of e (message r2) (lower (message r2)) [])
      as [[lc|ex] tr]; [|reflexivity].
    unfold completion_post. rewrite (Hconv lc). reflexivity.
Qed.

Lemma X23_only_last_three_count_witness :
  serve Scenario.quiet
    {| message := "Hello"; user_id := None;
       context := Some [JStr "a"; JStr "b"; JStr "c"; JStr "d"] |}
  = serve Scenario.quiet
      {| message := "Hello"; user_id := Some "u1";
         context := Some [JStr "b"; JStr "c"; JStr "d"] |}.
Proof.
  apply (X23_only_last_three_count Scenario.quiet); reflexivity.
Defined.
